(** * Inference on astng trees: a shallow embedding of [inference.py]

    The module attaches an [infer] method (and [infer_call_result],
    [assigned_stmts], [getitem]) to the node classes of the tree.  Every
    such method is a Python generator.  Here a generator is a finite tree
    of the things it may do before it ends: yield a value, or ask the
    inference context to record a (node, name) pair in its shared path.
    Running such a tree against a path gives the values in the order they
    are produced, so that a consumer which stops after the first value
    never triggers the effects of the rest. *)

From Stdlib Require Import String ZArith List Bool Lia PeanoNat.
Import ListNotations.
Set Warnings "-register-all".
Local Open Scope string_scope.
Local Open Scope Z_scope.

(** ** Python values held by [Const] nodes *)

Inductive pyval : Type :=
| PInt (z : Z)
| PBool (b : bool)
| PStr (s : string)
| PNone.

(** ** Exceptions *)

Inductive exc : Type :=
| InferenceError (arg : option string)
| UnresolvableName (name : string)
| NotFoundError
| NoDefault
| ASTNGBuildingException
| SyntaxError
| AttributeError
| IndexError
| KeyError
| TypeError
| ValueError
| ZeroDivisionError.

(** [UnresolvableName] derives from [InferenceError]: an
    [except InferenceError] clause catches both. *)
Definition is_InferenceError (e : exc) : bool :=
  match e with
  | InferenceError _ | UnresolvableName _ => true
  | _ => false
  end.

(** ** Nodes and inferred values

    Nodes whose [infer] is wrapped by [path_wrapper] carry the identity
    [id] under which they are recorded in the path. *)

Inductive ftype : Type := Plain | Method | ClassMethod | StaticMethod.

Inductive target : Type :=
| AssName (name : string)
| AssTuple (nodes : list target).

Inductive node : Type :=
| Const (value : pyval)
| Name (id : nat) (name : string)
| CallFunc (id : nat) (func : node) (args : list node)
           (starargs kwargs : option node)
| Keyword (name : string) (expr : node)
| UnaryOp (id : nat) (op : string) (operand : node)
| BinOp (id : nat) (op : string) (left right : node)
| Subscript (id : nat) (expr : node) (subs : list node)
| List (elts : list node)
| Tuple (elts : list node)
| Dict (items : list node)
| Function (id : nat) (name : string) (argnames : option (list string))
           (defaults : list node) (varargs kwargs : bool) (type : ftype)
           (code : list node)
| Lambda (id : nat) (argnames : option (list string))
         (defaults : list node) (varargs kwargs : bool) (code : node)
| Class (id : nat) (name : string) (bases : list node) (code : list node)
| Module (id : nat) (name : string)
| Import (id : nat) (names : list (string * option string))
| Assign (targets : list target) (expr : node)
| Return (value : node)
| Yield (value : node)
| Pass
| YES
| Instance (proxied : node)
| Generator (func : node).

Definition is_YES (n : node) : bool :=
  match n with YES => true | _ => false end.

(** ** Inference context

    The path is the one field shared by reference between a context and
    its clones; it is kept apart, as the state the generators run
    against. *)

Record CallContext : Type := mkCallContext {
  cc_args : list node;
  cc_nargs : list (string * node);
  cc_starargs : option node;
  cc_dstarargs : option node
}.

Record InferenceContext : Type := mkContext {
  lookupname : option string;
  callcontext : option CallContext;
  boundnode : option node
}.

Definition path := list (nat * option string).

Definition set_lookupname (c : InferenceContext) (n : option string) :=
  mkContext n (callcontext c) (boundnode c).
Definition set_callcontext (c : InferenceContext) (cc : option CallContext) :=
  mkContext (lookupname c) cc (boundnode c).

(** Modelled from the spec: [InferenceContext.clone] and [copy_context]
    live in the package's other modules.  Every field but the path is
    copied by value; the path stays shared. *)
Definition clone (c : InferenceContext) : InferenceContext := c.
Definition copy_context (c : InferenceContext) : InferenceContext := clone c.

Definition fresh_context : InferenceContext := mkContext None None None.

(** ** Generators *)

Inductive ending : Type :=
| Done
| Returned
| Raise (e : exc)
| Unmodelled
| OutOfFuel.

Inductive gen : Type :=
| GStop (e : ending)
| GYield (v : node) (k : gen)
| GPush (key : nat * option string) (k : bool -> gen).

Definition key_eqb (a b : nat * option string) : bool :=
  Nat.eqb (fst a) (fst b) &&
  match snd a, snd b with
  | None, None => true
  | Some x, Some y => String.eqb x y
  | _, _ => false
  end.

Definition in_path (k : nat * option string) (p : path) : bool :=
  existsb (key_eqb k) p.

(** Drive a generator to its end against a path. *)
Fixpoint run (g : gen) (p : path) : list node * ending * path :=
  match g with
  | GStop e => ([], e, p)
  | GYield v k =>
      let '(vs, e, p') := run k p in (v :: vs, e, p')
  | GPush key k =>
      if in_path key p then run (k true) p
      else run (k false) (key :: p)
  end.

Definition values (r : list node * ending * path) : list node := fst (fst r).
Definition ended (r : list node * ending * path) : ending := snd (fst r).

Definition raise (e : exc) : gen := GStop (Raise e).
Definition stop : gen := GStop Done.
Definition yield1 (v : node) : gen := GYield v stop.

(** [g ;; k]: when [g] falls off its end, go on with [k]. *)
Fixpoint gseq (g k : gen) : gen :=
  match g with
  | GStop Done => k
  | GStop e => GStop e
  | GYield v g' => GYield v (gseq g' k)
  | GPush key f => GPush key (fun b => gseq (f b) k)
  end.

(** [for x in g: body x], followed by [k].  A body that ends with
    [Returned] leaves the enclosing generator. *)
Fixpoint gfor (g : gen) (body : node -> gen) (k : gen) : gen :=
  match g with
  | GStop Done => k
  | GStop e => GStop e
  | GYield v g' => gseq (body v) (gfor g' body k)
  | GPush key f => GPush key (fun b => gfor (f b) body k)
  end.

(** A loop that yields nothing and only accumulates, as the loops filling
    [its] in [CallContext.infer_argument]. *)
Fixpoint gfold {A : Type} (g : gen) (step : A -> node -> A + ending) (acc : A)
         (k : A -> gen) : gen :=
  match g with
  | GStop Done => k acc
  | GStop e => GStop e
  | GYield v g' =>
      match step acc v with
      | inl acc' => gfold g' step acc' k
      | inr e => GStop e
      end
  | GPush key f => GPush key (fun b => gfold (f b) step acc k)
  end.

(** [try: g  except <caught>: handler]. *)
Fixpoint gcatch (g : gen) (caught : exc -> bool) (handler : exc -> gen) : gen :=
  match g with
  | GStop (Raise e) => if caught e then handler e else GStop (Raise e)
  | GStop e => GStop e
  | GYield v g' => GYield v (gcatch g' caught handler)
  | GPush key f => GPush key (fun b => gcatch (f b) caught handler)
  end.

(** The [found] / [one_infered] flag: set at every yield; a generator that
    reaches its end without having yielded raises [e]. *)
Fixpoint gfound (seen : bool) (g : gen) (e : exc) : gen :=
  match g with
  | GStop Done => if seen then GStop Done else GStop (Raise e)
  | GStop x => GStop x
  | GYield v g' => GYield v (gfound true g' e)
  | GPush key f => GPush key (fun b => gfound seen (f b) e)
  end.

(** [g.next()]: the first value of [g]; the rest of [g] never runs.  An
    exhausted [g] raises StopIteration, which ends the calling generator. *)
Fixpoint gnext (g : gen) (k : node -> gen) : gen :=
  match g with
  | GStop Done => GStop Returned
  | GStop e => GStop e
  | GYield v _ => k v
  | GPush key f => GPush key (fun b => gnext (f b) k)
  end.

(** The boundary of a generator function: [return] ends it normally. *)
Fixpoint gfun (g : gen) : gen :=
  match g with
  | GStop Returned => GStop Done
  | GStop e => GStop e
  | GYield v g' => GYield v (gfun g')
  | GPush key f => GPush key (fun b => gfun (f b))
  end.

(** ** Python sequence indexing, [seq[index]] *)

Definition as_int (v : pyval) : option Z :=
  match v with
  | PInt z => Some z
  | PBool b => Some (if b then 1 else 0)
  | _ => None
  end.

Definition py_index {A : Type} (l : list A) (index : pyval) : A + exc :=
  match as_int index with
  | Some i =>
      let n := Z.of_nat (length l) in
      let j := if i <? 0 then i + n else i in
      if (0 <=? j) && (j <? n) then
        match nth_error l (Z.to_nat j) with
        | Some x => inl x
        | None => inr IndexError
        end
      else inr IndexError
  | None => inr TypeError
  end.

(** ** Python operators on literal values

    What the lambdas of [UNARY_OP_IMPL] and [BIN_OP_IMPL] compute when
    applied to the values above.  Integers are unbounded, booleans count
    as the integers 0 and 1, and [/] on integers is the floor division of
    Python 2.  Results that are floats or formatted strings are outside
    the values modelled. *)

Inductive impl_result : Type :=
| IVal (v : pyval)
| IThrow (e : exc)
| IOutside.

Definition int_op (f : Z -> Z -> Z) (a b : pyval) : impl_result :=
  match as_int a, as_int b with
  | Some x, Some y => IVal (PInt (f x y))
  | _, _ => IThrow TypeError
  end.

Definition bit_op (f : Z -> Z -> Z) (fb : bool -> bool -> bool)
           (a b : pyval) : impl_result :=
  match a, b with
  | PBool x, PBool y => IVal (PBool (fb x y))
  | _, _ => int_op f a b
  end.

Fixpoint str_repeat (n : nat) (s : string) : string :=
  match n with
  | O => EmptyString
  | S n' => s ++ str_repeat n' s
  end.

Definition py_add (a b : pyval) : impl_result :=
  match a, b with
  | PStr x, PStr y => IVal (PStr (x ++ y))
  | _, _ => int_op Z.add a b
  end.

Definition py_sub (a b : pyval) : impl_result := int_op Z.sub a b.

Definition py_mul (a b : pyval) : impl_result :=
  match a, b with
  | PStr s, _ =>
      match as_int b with
      | Some n => IVal (PStr (str_repeat (Z.to_nat n) s))
      | None => IThrow TypeError
      end
  | _, PStr s =>
      match as_int a with
      | Some n => IVal (PStr (str_repeat (Z.to_nat n) s))
      | None => IThrow TypeError
      end
  | _, _ => int_op Z.mul a b
  end.

Definition py_floordiv (a b : pyval) : impl_result :=
  match as_int a, as_int b with
  | Some x, Some y =>
      if y =? 0 then IThrow ZeroDivisionError else IVal (PInt (x / y))
  | _, _ => IThrow TypeError
  end.

Definition py_div (a b : pyval) : impl_result := py_floordiv a b.

Definition py_mod (a b : pyval) : impl_result :=
  match a with
  | PStr _ => IOutside
  | _ =>
      match as_int a, as_int b with
      | Some x, Some y =>
          if y =? 0 then IThrow ZeroDivisionError else IVal (PInt (x mod y))
      | _, _ => IThrow TypeError
      end
  end.

Definition py_pow (a b : pyval) : impl_result :=
  match as_int a, as_int b with
  | Some x, Some y =>
      if 0 <=? y then IVal (PInt (x ^ y))
      else if x =? 0 then IThrow ZeroDivisionError
      else IOutside
  | _, _ => IThrow TypeError
  end.

Definition py_and : pyval -> pyval -> impl_result := bit_op Z.land andb.
Definition py_or : pyval -> pyval -> impl_result := bit_op Z.lor orb.
Definition py_xor : pyval -> pyval -> impl_result := bit_op Z.lxor xorb.

(** The true shifts of Python, [a << b] and [a >> b]; a negative shift
    count raises ValueError.  [BIN_OP_IMPL] does not use them. *)
Definition py_lshift (a b : pyval) : impl_result :=
  match as_int a, as_int b with
  | Some x, Some y =>
      if y <? 0 then IThrow ValueError else IVal (PInt (Z.shiftl x y))
  | _, _ => IThrow TypeError
  end.

Definition py_rshift (a b : pyval) : impl_result :=
  match as_int a, as_int b with
  | Some x, Some y =>
      if y <? 0 then IThrow ValueError else IVal (PInt (Z.shiftr x y))
  | _, _ => IThrow TypeError
  end.

Definition py_pos (a : pyval) : impl_result :=
  match as_int a with
  | Some x => IVal (PInt x)
  | None => IThrow TypeError
  end.

Definition py_neg (a : pyval) : impl_result :=
  match as_int a with
  | Some x => IVal (PInt (- x))
  | None => IThrow TypeError
  end.

Definition py_truth (a : pyval) : bool :=
  match a with
  | PInt z => negb (z =? 0)
  | PBool b => b
  | PStr s => negb (String.eqb s EmptyString)
  | PNone => false
  end.

Definition py_not (a : pyval) : impl_result := IVal (PBool (negb (py_truth a))).

(** [UNARY_OP_IMPL] and [BIN_OP_IMPL]: operator symbol to (impl, meth).
    A symbol absent from the table raises KeyError. *)

Definition UNARY_OP_IMPL (op : string)
  : option ((pyval -> impl_result) * option string) :=
  if String.eqb op "+" then Some (py_pos, Some "__pos__")
  else if String.eqb op "-" then Some (py_neg, Some "__neg__")
  else if String.eqb op "not" then Some (py_not, None)
  else None.

Definition BIN_OP_IMPL (op : string)
  : option ((pyval -> pyval -> impl_result) * string) :=
  if String.eqb op "+" then Some (py_add, "__add__")
  else if String.eqb op "-" then Some (py_sub, "__sub__")
  else if String.eqb op "/" then Some (py_div, "__div__")
  else if String.eqb op "//" then Some (py_floordiv, "__floordiv__")
  else if String.eqb op "*" then Some (py_mul, "__mul__")
  else if String.eqb op "**" then Some (py_pow, "__power__")
  else if String.eqb op "%" then Some (py_mod, "__mod__")
  else if String.eqb op "&" then Some (py_and, "__and__")
  else if String.eqb op "|" then Some (py_or, "__or__")
  else if String.eqb op "^" then Some (py_xor, "__xor__")
  else if String.eqb op "<<" then Some (py_xor, "__lshift__")
  else if String.eqb op ">>" then Some (py_xor, "__rshift__")
  else None.

Definition py_eq (a b : pyval) : bool :=
  match a, b with
  | PStr x, PStr y => String.eqb x y
  | PNone, PNone => true
  | _, _ =>
      match as_int a, as_int b with
      | Some x, Some y => x =? y
      | _, _ => false
      end
  end.

(** ** The tree's own services

    Scope lookup, navigation to the enclosing frame, attribute lookup and
    module resolution belong to the tree; inference only calls them. *)

Record Tree : Type := mkTree {
  (** [node.lookup(name)] on the Name node [id]: the frame the name was
      found in and the statements defining it there. *)
  lookup : nat -> string -> option nat * list node;
  (** [funcnode.parent.frame()] of the function [id]. *)
  parent_frame : nat -> node;
  (** whether [value.getattr(meth)] returns rather than raises. *)
  has_attr : node -> string -> bool;
  (** [node.root()] of the Import node [id]. *)
  root : nat -> node;
  (** [module.relative_name(modname)]. *)
  relative_name : node -> string -> string;
  (** [module.import_module(modname)]. *)
  import_module : node -> string -> node + exc;
  (** [importnode.real_name(asname)]. *)
  real_name : node -> string -> string + exc
}.

Definition node_name (n : node) : string :=
  match n with
  | Module _ name | Class _ name _ _ | Function _ name _ _ _ _ _ _
  | Name _ name => name
  | _ => EmptyString
  end.

Definition class_name (n : node) : string :=
  match n with
  | Keyword _ _ => "Keyword"
  | Assign _ _ => "Assign"
  | Return _ => "Return"
  | Yield _ => "Yield"
  | Pass => "Pass"
  | _ => "Node"
  end.

(** ** Function signatures *)

Definition func_argnames (f : node) : option (list string) :=
  match f with
  | Function _ _ a _ _ _ _ _ | Lambda _ a _ _ _ _ => a
  | _ => None
  end.

Definition func_defaults (f : node) : list node :=
  match f with
  | Function _ _ _ d _ _ _ _ | Lambda _ _ d _ _ _ => d
  | _ => []
  end.

Definition func_varargs (f : node) : bool :=
  match f with
  | Function _ _ _ _ v _ _ _ | Lambda _ _ _ v _ _ => v
  | _ => false
  end.

Definition func_kwargs (f : node) : bool :=
  match f with
  | Function _ _ _ _ _ k _ _ | Lambda _ _ _ _ k _ => k
  | _ => false
  end.

Definition func_type (f : node) : ftype :=
  match f with
  | Function _ _ _ _ _ _ t _ => t
  | _ => Plain
  end.

Definition func_id (f : node) : nat :=
  match f with
  | Function i _ _ _ _ _ _ _ | Lambda i _ _ _ _ _ => i
  | _ => O
  end.

(** [l.index(x)]: position of the first occurrence, or ValueError. *)
Fixpoint list_index (x : string) (l : list string) : option nat :=
  match l with
  | [] => None
  | y :: l' =>
      if String.eqb x y then Some O
      else option_map S (list_index x l')
  end.

Definition nat_of_bool (b : bool) : nat := if b then 1%nat else 0%nat.

(** Modelled from the spec: [Function.mularg_class] is a method of the
    node classes.  The [*] and [**] collectors close [argnames]; asking
    for one of them gives a synthetic empty Tuple or Dict. *)
Definition mularg_class (f : node) (name : string) : option node :=
  match func_argnames f with
  | None => None
  | Some names =>
      let n := length names in
      let kw := func_kwargs f in
      let va := func_varargs f in
      match list_index name names with
      | None => None
      | Some i =>
          if kw && Nat.eqb (S i) n then Some (Dict [])
          else if va && Nat.eqb (S i + nat_of_bool kw) n then Some (Tuple [])
          else None
      end
  end.

(** Modelled from the spec: [Function.default_value] is a method of the
    node classes.  Defaults belong to the last positional parameters;
    a parameter without one raises NoDefault. *)
Definition default_value (f : node) (name : string) : node + exc :=
  match func_argnames f with
  | None => inr NoDefault
  | Some names =>
      let npos := (length names - nat_of_bool (func_varargs f)
                   - nat_of_bool (func_kwargs f))%nat in
      let first := (npos - length (func_defaults f))%nat in
      match list_index name names with
      | None => inr NoDefault
      | Some i =>
          if Nat.leb first i && Nat.ltb i npos then
            match nth_error (func_defaults f) (i - first) with
            | Some d => inl d
            | None => inr NoDefault
            end
          else inr NoDefault
      end
  end.

(** Modelled from the spec: [_py_value] and [const_factory] come from
    the AST-specific half of the package.  An operand reduces to a
    literal when it is a [Const]; a computed value is wrapped back into
    a [Const]. *)
Definition _py_value (n : node) : pyval + exc :=
  match n with
  | Const v => inl v
  | _ => inr ValueError
  end.

Definition const_factory (v : pyval) : node := Const v.

(** ** [CallContext] *)

Fixpoint CallContext_fill (args : list node) (pos : list node)
         (nargs : list (string * node)) : list node * list (string * node) :=
  match args with
  | [] => (pos, nargs)
  | Keyword name expr :: rest => CallContext_fill rest pos ((name, expr) :: nargs)
  | arg :: rest => CallContext_fill rest (pos ++ [arg]) nargs
  end.

Definition CallContext_init (args : list node) (starargs dstarargs : option node)
  : CallContext :=
  let '(pos, nargs) := CallContext_fill args [] [] in
  mkCallContext pos nargs starargs dstarargs.

(** [self.nargs[name]]; the latest binding of a repeated keyword wins. *)
Fixpoint nargs_get (nargs : list (string * node)) (name : string) : option node :=
  match nargs with
  | [] => None
  | (k, v) :: rest => if String.eqb k name then Some v else nargs_get rest name
  end.

Definition node_id (n : node) : nat :=
  match n with
  | Name i _ | CallFunc i _ _ _ _ | UnaryOp i _ _ | BinOp i _ _ _
  | Subscript i _ _ | Function i _ _ _ _ _ _ _ | Lambda i _ _ _ _ _
  | Class i _ _ _ | Module i _ | Import i _ => i
  | _ => O
  end.

(** Kinds left with [nodes.Node.infer = infer_default]: calling their
    [infer] raises at once, before any generator exists. *)
Definition infers_by_default (n : node) : bool :=
  match n with
  | Keyword _ _ | Assign _ _ | Return _ | Yield _ | Pass => true
  | _ => false
  end.

Definition is_Return (n : node) : bool :=
  match n with Return _ => true | _ => false end.
Definition is_Yield (n : node) : bool :=
  match n with Yield _ => true | _ => false end.

(** Modelled from the spec: [is_generator] and [nodes_of_class] are the
    tree's traversals.  A function is a generator when its own body holds
    a yield; its returns are the return statements of its own body. *)
Definition is_generator (f : node) : bool :=
  match f with
  | Function _ _ _ _ _ _ _ code => existsb is_Yield code
  | _ => false
  end.

Definition nodes_of_class_Return (f : node) : list node :=
  match f with
  | Function _ _ _ _ _ _ _ code => filter is_Return code
  | _ => []
  end.

(** Modelled from the spec: [_infer_name] is a method of the node
    classes.  A function found as the frame of the name is asked for its
    parameter of that name, an import for the imported name; any other
    defining statement is inferred for itself. *)
Definition _infer_name (stmt : node) (frame : option nat) (name : option string)
  : option string :=
  match stmt with
  | Function i _ _ _ _ _ _ _ | Lambda i _ _ _ _ _ =>
      match frame with
      | Some f => if Nat.eqb f i then name else None
      | None => None
      end
  | Import _ _ => name
  | _ => None
  end.

(** Modelled from the spec: [eq] is a method of the node classes; a
    literal equals a key when their values are equal. *)
Definition node_eq (n : node) (key : pyval) : bool + exc :=
  match n with
  | Const v => inl (py_eq v key)
  | _ => inr AttributeError
  end.

(** ** The subscription protocol *)

Definition tl_getitem (elts : list node) (index : pyval) : node + ending :=
  match py_index elts index with
  | inl x => inl x
  | inr e => inr (Raise e)
  end.

(** Whether one of the values a key expression infers to equals [key];
    the search stops at the first that does. *)
Fixpoint key_matches (g : gen) (p : path) (key : pyval) : bool + ending :=
  match g with
  | GStop Done => inl false
  | GStop e => inr e
  | GYield v g' =>
      if is_YES v then key_matches g' p key
      else match node_eq v key with
           | inl true => inl true
           | inl false => key_matches g' p key
           | inr e => inr (Raise e)
           end
  | GPush k f =>
      if in_path k p then key_matches (f true) p key
      else key_matches (f false) (k :: p) key
  end.

Fixpoint dict_getitem (rec : node -> InferenceContext -> gen)
         (items : list node) (key : pyval) : node + ending :=
  match items with
  | [] => inr (Raise IndexError)
  | k :: rest =>
      match key_matches (rec k fresh_context) [] key with
      | inr e => inr e
      | inl true =>
          match rest with
          | v :: _ => inl v
          | [] => inr (Raise IndexError)
          end
      | inl false =>
          match rest with
          | _ :: rest' => dict_getitem rec rest' key
          | [] => inr (Raise IndexError)
          end
      end
  end.

(** ** The [infer] methods

    Every method takes [rec], the [infer] it calls on other nodes. *)

Local Open Scope list_scope.

Section Inference.

Variable T : Tree.
Variable rec : node -> InferenceContext -> gen.

(** Modelled from the spec: [path_wrapper] is defined by the package.
    Before a node is resolved for a name, the pair is looked up in the
    path: when present the branch yields nothing, otherwise the pair is
    recorded and the wrapped method runs. *)
Definition path_wrapper (n : node) (context : InferenceContext) (body : gen)
  : gen :=
  GPush (node_id n, lookupname context)
        (fun present => if present then stop else body).

Definition infer_default (self : node) : gen :=
  raise (InferenceError (Some (class_name self))).

(** Modelled from the spec: [infer_end] is imported from the node
    module; such a node infers to itself. *)
Definition infer_end (self : node) : gen := yield1 self.

Definition getitem (n : node) (index : pyval) : node + ending :=
  match n with
  | List elts | Tuple elts => tl_getitem elts index
  | Dict items => dict_getitem rec items index
  | YES => inl YES
  | _ => inr (Raise AttributeError)
  end.

Definition chain (its : list gen) : gen := fold_right gseq stop its.

(** One turn of the loops over an inferred [*args] or [**kwargs] value. *)
Definition its_step (key : pyval) (context : InferenceContext)
           (its : list gen) (infered : node) : list gen + ending :=
  if is_YES infered then inl (its ++ [yield1 YES])
  else
    match getitem infered key with
    | inl elt =>
        if infers_by_default elt then inl (its ++ [yield1 YES])
        else inl (its ++ [rec elt context])
    | inr (Raise IndexError) => inl its
    | inr (Raise AttributeError) => inl (its ++ [yield1 YES])
    | inr (Raise e) =>
        if is_InferenceError e then inl (its ++ [yield1 YES])
        else inr (Raise e)
    | inr e => inr e
    end.

(** Steps 4 to 6 of [CallContext.infer_argument]. *)
Definition infer_argument_tail (self : CallContext) (funcnode : node)
           (name : string) (context : InferenceContext) : gen :=
  let last :=
    match mularg_class funcnode name with
    | Some mularg => yield1 mularg
    | None =>
        match default_value funcnode name with
        | inl d => rec d context
        | inr NoDefault => raise (InferenceError (Some name))
        | inr e => raise e
        end
    end in
  match cc_dstarargs self with
  | Some d =>
      gfold (rec d context) (its_step (PStr name) context) []
            (fun its => match its with [] => last | _ => chain its end)
  | None => last
  end.

Definition infer_argument (self : CallContext) (funcnode : node)
           (name : string) (context : InferenceContext) : gen :=
  match nargs_get (cc_nargs self) name with
  | Some expr => rec expr context
  | None =>
      let tail := infer_argument_tail self funcnode name context in
      match func_argnames funcnode with
      | None => tail
      | Some argnames =>
          match list_index name argnames with
          | None => tail
          | Some argindex =>
              let positional :=
                match nth_error (cc_args self) argindex with
                | Some arg => rec arg context
                | None =>
                    match cc_starargs self with
                    | Some s =>
                        gfold (rec s context)
                              (its_step (PInt (Z.of_nat argindex)) context) []
                              (fun its => match its with
                                          | [] => tail
                                          | _ => chain its
                                          end)
                    | None => tail
                    end
                end in
              let boundnode :=
                match boundnode context with
                | Some b => b
                | None => parent_frame T (func_id funcnode)
                end in
              match argindex, func_type funcnode with
              | O, Method => yield1 (Instance boundnode)
              | O, ClassMethod => yield1 boundnode
              | _, _ => positional
              end
          end
      end
  end.

Definition infer_function (self : node) (context : InferenceContext) : gen :=
  match lookupname context with
  | None => yield1 self
  | Some name =>
      match callcontext context with
      | Some cc =>
          let context := set_callcontext (copy_context context) None in
          infer_argument cc self name context
      | None =>
          match func_argnames self with
          | None => yield1 YES
          | Some argnames =>
              match list_index name argnames with
              | None => raise (InferenceError None)
              | Some i =>
                  let other :=
                    match mularg_class self name with
                    | Some mularg => yield1 mularg
                    | None =>
                        match default_value self name with
                        | inl d =>
                            gseq (rec d (copy_context context)) (yield1 YES)
                        | inr NoDefault => yield1 YES
                        | inr e => raise e
                        end
                    end in
                  if String.eqb name (hd EmptyString argnames) then
                    match func_type self with
                    | Method => yield1 (Instance (parent_frame T (func_id self)))
                    | ClassMethod => yield1 (parent_frame T (func_id self))
                    | _ => other
                    end
                  else other
              end
          end
      end
  end.

(** Modelled from the spec: [_infer_stmts] is imported from the node
    module.  Each candidate statement is inferred in turn and the results
    are concatenated; the failure of one candidate does not abort the
    others, and the whole fails when no candidate gave a value. *)
Fixpoint _infer_stmts_each (stmts : list node) (context : InferenceContext)
         (frame : option nat) (name : option string) : gen :=
  match stmts with
  | [] => stop
  | stmt :: rest =>
      gseq (if is_YES stmt then yield1 YES
            else gcatch (rec stmt (set_lookupname context
                                     (_infer_name stmt frame name)))
                        is_InferenceError (fun _ => stop))
           (_infer_stmts_each rest context frame name)
  end.

Definition _infer_stmts (stmts : list node) (context : InferenceContext)
           (frame : option nat) : gen :=
  gfound false
         (_infer_stmts_each stmts (clone context) frame (lookupname context))
         (InferenceError None).

Definition infer_name (id : nat) (name : string) (context : InferenceContext)
  : gen :=
  let context := set_lookupname (clone context) (Some name) in
  let '(frame, stmts) := lookup T id name in
  match stmts with
  | [] => raise (UnresolvableName name)
  | _ => _infer_stmts stmts context frame
  end.

(** ** Call results *)

Definition infer_call_result_function (self caller : node)
           (context : InferenceContext) : gen :=
  if is_generator self then yield1 (Generator self)
  else
    fold_right
      (fun returnnode k =>
         gseq (match returnnode with
               | Return value =>
                   gcatch (rec value context) is_InferenceError
                          (fun _ => yield1 YES)
               | _ => raise AttributeError
               end) k)
      stop (nodes_of_class_Return self).

Definition infer_call_result_lambda (code caller : node)
           (context : InferenceContext) : gen :=
  rec code context.

Definition infer_call_result_class (self caller : node)
           (context : InferenceContext) : gen :=
  yield1 (Instance self).

(** [callee.infer_call_result(caller, context)]; a value without the
    method raises AttributeError. *)
Definition infer_call_result (callee caller : node)
           (context : InferenceContext) : gen :=
  match callee with
  | Function _ _ _ _ _ _ _ _ => infer_call_result_function callee caller context
  | Lambda _ _ _ _ _ code => infer_call_result_lambda code caller context
  | Class _ _ _ _ => infer_call_result_class callee caller context
  | _ => raise AttributeError
  end.

Definition infer_callfunc (self func : node) (args : list node)
           (starargs kwargs : option node) (context : InferenceContext) : gen :=
  let context :=
    set_callcontext (clone context)
                    (Some (CallContext_init args starargs kwargs)) in
  gfound false
    (gfor (rec func context)
          (fun callee =>
             if is_YES callee then yield1 callee
             else gcatch (infer_call_result callee self context)
                         (fun e => match e with
                                   | AttributeError => true
                                   | _ => is_InferenceError e
                                   end)
                         (fun _ => stop))
          stop)
    (InferenceError None).

(** ** Imports *)

Definition _imported_module_astng (id : nat) (modname : string) : node + exc :=
  let mymodule := root T id in
  if String.eqb (relative_name T mymodule modname) (node_name mymodule) then
    inr (InferenceError (Some modname))
  else
    match import_module T mymodule modname with
    | inl m => inl m
    | inr ASTNGBuildingException | inr SyntaxError =>
        inr (InferenceError (Some modname))
    | inr e => inr e
    end.

Definition infer_import (self : node) (context : InferenceContext)
           (asname : bool) : gen :=
  match lookupname context with
  | None => raise (InferenceError None)
  | Some name =>
      let modname := if asname then real_name T self name else inl name in
      match modname with
      | inr e => raise e
      | inl modname =>
          match _imported_module_astng (node_id self) modname with
          | inl m => yield1 m
          | inr e => raise e
          end
      end
  end.

(** ** Subscripts *)

Definition infer_subscript (expr : node) (subs : list node)
           (context : InferenceContext) : gen :=
  gfun
    match subs with
    | [sub] =>
        gnext (rec sub context)
              (fun index =>
                 if is_YES index then yield1 YES
                 else
                   match index with
                   | Const value =>
                       match getitem expr value with
                       | inl assigned => rec assigned context
                       | inr (Raise AttributeError) =>
                           raise (InferenceError None)
                       | inr (Raise IndexError) => yield1 YES
                       | inr e => GStop e
                       end
                   | _ => raise (InferenceError None)
                   end)
    | _ => raise (InferenceError None)
    end.

(** ** Operators *)

Definition _infer_unary_operator (operand : node) (context : InferenceContext)
           (impl : pyval -> impl_result) (meth : option string) : gen :=
  gfor (rec operand context)
       (fun operand =>
          match _py_value operand with
          | inr _ =>
              match meth with
              | None => yield1 YES
              | Some m =>
                  if has_attr T operand m then yield1 operand else yield1 YES
              end
          | inl value =>
              match impl value with
              | IVal v => yield1 (const_factory v)
              | IThrow _ => yield1 YES
              | IOutside => GStop Unmodelled
              end
          end)
       stop.

Definition infer_unaryop (op : string) (operand : node)
           (context : InferenceContext) : gen :=
  match UNARY_OP_IMPL op with
  | Some (impl, meth) => _infer_unary_operator operand context impl meth
  | None => raise KeyError
  end.

Definition _infer_binary_operator (left right : node)
           (context : InferenceContext)
           (impl : pyval -> pyval -> impl_result) (meth : string) : gen :=
  gfor (rec left context)
       (fun lhs =>
          match _py_value lhs with
          | inr _ => if has_attr T lhs meth then yield1 lhs else yield1 YES
          | inl lhsvalue =>
              gfor (rec right context)
                   (fun rhs =>
                      match _py_value rhs with
                      | inr _ =>
                          if has_attr T rhs meth then yield1 rhs
                          else yield1 YES
                      | inl rhsvalue =>
                          match impl lhsvalue rhsvalue with
                          | IVal v => yield1 (const_factory v)
                          | IThrow TypeError => yield1 YES
                          | IThrow e => raise e
                          | IOutside => GStop Unmodelled
                          end
                      end)
                   stop
          end)
       stop.

Definition infer_binop (op : string) (left right : node)
           (context : InferenceContext) : gen :=
  match BIN_OP_IMPL op with
  | Some (impl, meth) => _infer_binary_operator left right context impl meth
  | None => raise KeyError
  end.

(** ** Assignments *)

Fixpoint _resolve_asspart (parts : gen) (asspath : list Z)
         (context : InferenceContext) : gen :=
  match asspath with
  | [] => raise IndexError
  | index :: asspath =>
      gfun
        (gfor parts
              (fun part =>
                 match getitem part (PInt index) with
                 | inr (Raise AttributeError) | inr (Raise IndexError) =>
                     GStop Returned
                 | inr e => GStop e
                 | inl assigned =>
                     match asspath with
                     | [] => yield1 assigned
                     | _ :: _ =>
                         if is_YES assigned then GStop Returned
                         else
                           gcatch (_resolve_asspart (rec assigned context)
                                                    asspath context)
                                  is_InferenceError
                                  (fun _ => GStop Returned)
                     end
                 end)
              stop)
  end.

Definition assign_assigned_stmts (expr : node) (node : node)
           (context : InferenceContext) (asspath : option (list Z)) : gen :=
  match asspath with
  | None | Some [] => yield1 expr
  | Some asspath =>
      gfound false (_resolve_asspart (rec expr context) asspath context)
             (InferenceError None)
  end.

(** ** Dispatch on the node's class

    Modelled from the spec: [Const] and the values [YES], [Instance] and
    [Generator] receive their [infer] elsewhere in the package; like the
    literal containers they infer to themselves. *)

Definition infer_node (n : node) (context : InferenceContext) : gen :=
  match n with
  | Name id name => path_wrapper n context (infer_name id name context)
  | CallFunc _ func args starargs kwargs =>
      path_wrapper n context (infer_callfunc n func args starargs kwargs context)
  | UnaryOp _ op operand =>
      path_wrapper n context (infer_unaryop op operand context)
  | BinOp _ op lhs rhs =>
      path_wrapper n context (infer_binop op lhs rhs context)
  | Subscript _ expr subs =>
      path_wrapper n context (infer_subscript expr subs context)
  | Function _ _ _ _ _ _ _ _ | Lambda _ _ _ _ _ _ =>
      path_wrapper n context (infer_function n context)
  | Import _ _ => path_wrapper n context (infer_import n context true)
  | Const _ | List _ | Tuple _ | Dict _ | Class _ _ _ _ | Module _ _
  | YES | Instance _ | Generator _ => infer_end n
  | Keyword _ _ | Assign _ _ | Return _ | Yield _ | Pass => infer_default n
  end.

End Inference.

(** [node.infer(context)], with [fuel] bounding the chain of calls from
    one node's [infer] into another's. *)
Fixpoint infer (T : Tree) (fuel : nat) (n : node) (context : InferenceContext)
  : gen :=
  match fuel with
  | O => GStop OutOfFuel
  | S fuel' => infer_node T (infer T fuel') n context
  end.

(** * Programs used as examples *)

(** The subscript of a list or tuple literal by a literal integer. *)
Definition is_sequence (n : node) : option (list node) :=
  match n with
  | List elts | Tuple elts => Some elts
  | _ => None
  end.

(** A tree with no names, no attributes and no importable module. *)
Definition bare_tree : Tree :=
  mkTree (fun _ _ => (None, [])) (fun _ => Pass) (fun _ _ => false)
         (fun _ => Module 0 "m") (fun _ s => s)
         (fun _ _ => inr ASTNGBuildingException) (fun _ s => inl s).

Definition ints (l : list Z) : list node := map (fun z => Const (PInt z)) l.

(** [SomeClass()] with an initializer in the class body: the call infers
    to the one Instance of the class. *)
Definition SomeClass : node :=
  Class 7 "SomeClass" []
        [Function 8 "__init__" (Some ["self"]) [] false false Method
                  [Return (Const PNone)]].

Definition SomeClass_tree : Tree :=
  mkTree (fun _ s => if String.eqb s "SomeClass" then (None, [SomeClass])
                     else (None, []))
         (fun _ => SomeClass) (fun _ _ => false)
         (fun _ => Module 0 "m") (fun _ s => s)
         (fun _ _ => inr ASTNGBuildingException) (fun _ s => inl s).

Definition self_call : node := CallFunc 2 (Name 3 "f") [Name 4 "n"] None None.
Definition self_call_def : node :=
  Function 1 "f" (Some ["n"]) [] false false Plain [Return self_call].

(** The scopes of [def f(n): return f(n)]: [f] is found at module level,
    [n] in the frame of [f]. *)
Definition self_call_tree : Tree :=
  mkTree (fun _ s => if String.eqb s "f" then (None, [self_call_def])
                     else if String.eqb s "n" then (Some 1%nat, [self_call_def])
                     else (None, []))
         (fun _ => Module 0 "m") (fun _ _ => false)
         (fun _ => Module 0 "m") (fun _ s => s)
         (fun _ _ => inr ASTNGBuildingException) (fun _ s => inl s).

Definition is_Keyword (n : node) : bool :=
  match n with Keyword _ _ => true | _ => false end.

Definition f_a_b : node :=
  Function 1 "f" (Some ["a"; "b"]) [Const (PInt 1)] false false Plain [Pass].

Definition f_a_b_called (name : string) : InferenceContext :=
  mkContext (Some name)
            (Some (CallContext_init [Const (PInt 42)] None None)) None.



(** The spec's names for the failures. *)
Inductive failure_kind : Type :=
| InferenceFailure
| UnresolvableNameFailure
| ModuleResolutionFailure
| NoDefaultAvailable
| OtherError.

Definition failure_kind_of (e : exc) : failure_kind :=
  match e with
  | InferenceError _ => InferenceFailure
  | UnresolvableName _ => UnresolvableNameFailure
  | ASTNGBuildingException => ModuleResolutionFailure
  | NoDefault => NoDefaultAvailable
  | _ => OtherError
  end.

(** A package [pkg] whose module holds [import pkg]; loading [pkg] would
    succeed if it were tried. *)
Definition pkg_tree : Tree :=
  mkTree (fun _ _ => (None, [])) (fun _ => Pass) (fun _ _ => false)
         (fun _ => Module 0 "pkg") (fun _ s => s)
         (fun _ _ => inl (Module 9 "pkg")) (fun _ s => inl s).

Definition import_pkg : node := Import 1 [("pkg", None)].

(** [def g(): return 1; return (2, 3)], so that [g()] infers to two
    candidates, the literal 1 first. *)
Definition two_returns : node :=
  Function 5 "g" (Some []) [] false false Plain
           [Return (Const (PInt 1));
            Return (Tuple [Const (PInt 2); Const (PInt 3)])].

Definition two_returns_tree : Tree :=
  mkTree (fun _ s => if String.eqb s "g" then (None, [two_returns])
                     else (None, []))
         (fun _ => Module 0 "m") (fun _ _ => false)
         (fun _ => Module 0 "m") (fun _ s => s)
         (fun _ _ => inr ASTNGBuildingException) (fun _ s => inl s).

Definition call_g : node := CallFunc 1 (Name 2 "g") [] None None.

(** What a call site binds: its arguments that are not keywords, in
    order, and for a name the expression of its last keyword. *)
Definition positional_args (args : list node) : list node :=
  filter (fun a => negb (is_Keyword a)) args.

Definition keyword_step (name : string) (acc : option node) (a : node)
  : option node :=
  match a with
  | Keyword k e => if String.eqb k name then Some e else acc
  | _ => acc
  end.

Definition last_keyword (args : list node) (name : string) : option node :=
  fold_left (keyword_step name) args None.

(** The receiver a method is bound to: the context's, or else the frame
    around the function. *)
Definition receiver (T : Tree) (f : node) (ctx : InferenceContext) : node :=
  match boundnode ctx with
  | Some b => b
  | None => parent_frame T (func_id f)
  end.

Definition binds_receiver (f : node) : bool :=
  match func_type f with
  | Method | ClassMethod => true
  | _ => false
  end.

Definition method_m : node :=
  Function 3 "m" (Some ["self"; "x"]) [] false false Method [Pass].

Definition f_x_y : node :=
  Function 1 "f" (Some ["x"; "y"]) [] false false Plain [Pass].




Definition no_return : node :=
  Function 5 "p" (Some []) [] false false Plain [Pass].


Definition one_name_tree (name : string) (def : node) : Tree :=
  mkTree (fun _ s => if String.eqb s name then (None, [def]) else (None, []))
         (fun _ => Module 0 "m") (fun _ _ => false)
         (fun _ => Module 0 "m") (fun _ s => s)
         (fun _ _ => inr ASTNGBuildingException) (fun _ s => inl s).

Definition identity_fn : node :=
  Function 5 "f" (Some ["a"]) [] false false Plain [Return (Name 6 "a")].

(** The scopes of [def f(a): return a]: [f] at module level, [a] in the
    frame of [f]. *)
Definition identity_tree : Tree :=
  mkTree (fun _ s => if String.eqb s "f" then (None, [identity_fn])
                     else if String.eqb s "a" then (Some 5%nat, [identity_fn])
                     else (None, []))
         (fun _ => Module 0 "m") (fun _ _ => false)
         (fun _ => Module 0 "m") (fun _ s => s)
         (fun _ _ => inr ASTNGBuildingException) (fun _ s => inl s).

(** The integer operations behind the operators that stay within the
    integers for all operands. *)
Definition int_binop (op : string) : option (Z -> Z -> Z) :=
  if String.eqb op "+" then Some Z.add
  else if String.eqb op "-" then Some Z.sub
  else if String.eqb op "*" then Some Z.mul
  else if String.eqb op "&" then Some Z.land
  else if String.eqb op "|" then Some Z.lor
  else if String.eqb op "^" then Some Z.lxor
  else None.

(** The operators that divide: floor division and its remainder. *)
Definition div_binop (op : string) : option (Z -> Z -> Z) :=
  if String.eqb op "/" then Some Z.div
  else if String.eqb op "//" then Some Z.div
  else if String.eqb op "%" then Some Z.modulo
  else None.

Definition is_Const (n : node) : bool :=
  match n with Const _ => true | _ => false end.

(** Nodes with the subscription protocol of this module. *)
Definition has_getitem (n : node) : bool :=
  match n with
  | List _ | Tuple _ | Dict _ => true
  | _ => false
  end.

(** A dict literal whose keys are literals, from its (key, value) pairs. *)
Definition literal_dict_items (kvs : list (pyval * node)) : list node :=
  flat_map (fun kv => [Const (fst kv); snd kv]) kvs.

Definition first_value (kvs : list (pyval * node)) (key : pyval)
  : option node :=
  option_map snd (find (fun kv => py_eq (fst kv) key) kvs).

(** Literals nested in list and tuple literals. *)
Fixpoint nested_literal (n : node) : bool :=
  match n with
  | Const _ => true
  | List elts | Tuple elts => forallb nested_literal elts
  | _ => false
  end.

(** The element an access path reaches inside nested list and tuple
    literals. *)
Fixpoint literal_walk (n : node) (asspath : list Z) : option node :=
  match asspath with
  | [] => Some n
  | index :: asspath =>
      match is_sequence n with
      | Some elts =>
          match py_index elts (PInt index) with
          | inl x => literal_walk x asspath
          | inr _ => None
          end
      | None => None
      end
  end.

(** ** From-imports, globals and exception handlers

    [From], [Global] and [TryExcept] nodes are described by their
    fields; the attribute lookup of a module and the unpacking of a
    handler's type expression are services of the package. *)

Section FromGlobalTryExcept.

Variable T : Tree.
Variable rec : node -> InferenceContext -> gen.

(** [module.getattr(name)]: the statements defining [name] in the
    module, or NotFoundError. *)
Variable getattr : node -> string -> list node + exc.

(** [unpack_infer(exc_type)]: the values a handler's type expression
    stands for. *)
Variable unpack_infer : node -> gen.

(** [infer_from] on the From node [id] for [from modname import ...];
    [self_real_name] is the node's [real_name]. *)
Definition infer_from (id : nat) (modname : string)
           (self_real_name : string -> string + exc)
           (context : InferenceContext) (asname : bool) : gen :=
  match lookupname context with
  | None => raise (InferenceError None)
  | Some name =>
      match (if asname then self_real_name name else inl name) with
      | inr e => raise e
      | inl name =>
          match _imported_module_astng T id modname with
          | inr e => raise e
          | inl module =>
              match getattr module name with
              | inl stmts =>
                  _infer_stmts rec stmts
                               (set_lookupname (copy_context context)
                                               (Some name))
                               None
              | inr NotFoundError => raise (InferenceError (Some name))
              | inr e => raise e
              end
          end
      end
  end.

(** [infer_global] on the Global node [id]. *)
Definition infer_global (id : nat) (context : InferenceContext) : gen :=
  match lookupname context with
  | None => raise (InferenceError None)
  | Some name =>
      match getattr (root T id) name with
      | inl stmts => _infer_stmts rec stmts context None
      | inr NotFoundError => raise (InferenceError None)
      | inr e => raise e
      end
  end.

Definition instance_of_class (assigned : node) : node :=
  match assigned with
  | Class _ _ _ _ => Instance assigned
  | _ => assigned
  end.

(** The loop of [tryexcept_assigned_stmts] over the handlers
    [(exc_type, exc_obj, body)]; [exc_obj] is the identity of the bound
    target, if the handler binds one, and [node] the one asked for. *)
Fixpoint tryexcept_handlers (handlers : list (node * option nat * list node))
         (node : nat) : gen :=
  match handlers with
  | [] => stop
  | (exc_type, exc_obj, _) :: handlers =>
      if match exc_obj with
         | Some target => Nat.eqb node target
         | None => false
         end
      then gfor (unpack_infer exc_type)
                (fun assigned => yield1 (instance_of_class assigned)) stop
      else tryexcept_handlers handlers node
  end.

Definition tryexcept_assigned_stmts
           (handlers : list (node * option nat * list node)) (node : nat)
  : gen :=
  gfound false (tryexcept_handlers handlers node) (InferenceError None).

End FromGlobalTryExcept.

(** [dict_iter_stmts]: [self.items[::2]]. *)
Fixpoint dict_iter_stmts (items : list node) : list node :=
  match items with
  | [] => []
  | key :: rest =>
      key :: match rest with
             | [] => []
             | _ :: rest' => dict_iter_stmts rest'
             end
  end.

Definition binds_target (target : nat) (h : node * option nat * list node)
  : bool :=
  match snd (fst h) with
  | Some t => Nat.eqb target t
  | None => false
  end.

Definition ValueError_class : node := Class 20 "ValueError" [] [].
Definition KeyError_class : node := Class 21 "KeyError" [] [].

(** * Properties *)

(** ** Sequence indexing *)

Lemma py_index_front {A : Type} (l : list A) (i : Z) (x : A) :
  0 <= i -> nth_error l (Z.to_nat i) = Some x -> py_index l (PInt i) = inl x.
Proof.
  intros Hi Hx. unfold py_index. cbn [as_int].
  assert (Hlt : (Z.to_nat i < length l)%nat)
    by (apply nth_error_Some; congruence).
  destruct (i <? 0) eqn:Hneg; [apply Z.ltb_lt in Hneg; lia|].
  replace (0 <=? i) with true by (symmetry; apply Z.leb_le; lia).
  replace (i <? Z.of_nat (length l)) with true
    by (symmetry; apply Z.ltb_lt; lia).
  cbn. now rewrite Hx.
Qed.

Lemma py_index_back {A : Type} (l : list A) (i : Z) (x : A) :
  i < 0 -> - Z.of_nat (length l) <= i ->
  nth_error l (Z.to_nat (i + Z.of_nat (length l))) = Some x ->
  py_index l (PInt i) = inl x.
Proof.
  intros Hi Hlo Hx. unfold py_index. cbn [as_int].
  replace (i <? 0) with true by (symmetry; apply Z.ltb_lt; lia).
  replace (0 <=? i + Z.of_nat (length l)) with true
    by (symmetry; apply Z.leb_le; lia).
  replace (i + Z.of_nat (length l) <? Z.of_nat (length l)) with true
    by (symmetry; apply Z.ltb_lt; lia).
  cbn. now rewrite Hx.
Qed.

Lemma py_index_outside {A : Type} (l : list A) (i : Z) :
  Z.of_nat (length l) <= i \/ i < - Z.of_nat (length l) ->
  py_index l (PInt i) = inr IndexError.
Proof.
  intros H. unfold py_index. cbn [as_int].
  destruct (i <? 0) eqn:Hneg.
  - apply Z.ltb_lt in Hneg.
    replace (0 <=? i + Z.of_nat (length l)) with false
      by (symmetry; apply Z.leb_gt; lia).
    reflexivity.
  - apply Z.ltb_ge in Hneg.
    replace (i <? Z.of_nat (length l)) with false
      by (symmetry; apply Z.ltb_ge; lia).
    now rewrite andb_false_r.
Qed.

(** A literal infers to itself whatever the fuel left, as long as some is. *)
Lemma infer_Const (T : Tree) (fuel : nat) (v : pyval) (ctx : InferenceContext) :
  infer T (S fuel) (Const v) ctx = yield1 (Const v).
Proof. reflexivity. Qed.

Lemma infer_subscript_literal (T : Tree) (fuel : nat) (id : nat)
      (base : node) (elts : list node) (i : Z) (ctx : InferenceContext) :
  is_sequence base = Some elts ->
  infer T (S (S fuel)) (Subscript id base [Const (PInt i)]) ctx =
  path_wrapper (Subscript id base [Const (PInt i)]) ctx
    (gfun match py_index elts (PInt i) with
          | inl assigned => infer T (S fuel) assigned ctx
          | inr IndexError => yield1 YES
          | inr AttributeError => raise (InferenceError None)
          | inr e => raise e
          end).
Proof.
  intros Hb.
  destruct base; cbn in Hb; try discriminate;
    injection Hb as <-; cbn -[py_index];
    unfold path_wrapper, infer_subscript; cbn -[py_index];
    unfold tl_getitem; destruct (py_index _ _) as [x|[]]; reflexivity.
Qed.

(** ** Running a guarded method *)

Lemma run_path_wrapper_fresh (n : node) (ctx : InferenceContext)
      (body : gen) (p : path) :
  in_path (node_id n, lookupname ctx) p = false ->
  run (path_wrapper n ctx body) p = run body ((node_id n, lookupname ctx) :: p).
Proof. intros H. cbn. now rewrite H. Qed.

Lemma run_path_wrapper_seen (n : node) (ctx : InferenceContext)
      (body : gen) (p : path) :
  in_path (node_id n, lookupname ctx) p = true ->
  run (path_wrapper n ctx body) p = ([], Done, p).
Proof. intros H. cbn. now rewrite H. Qed.

(** ** Subscripts of list and tuple literals *)

(** C5: a single-index subscript of a list literal by a literal integer
    index infers to what the element at that position infers to, which for
    a literal element is the element itself; an index past either end
    gives exactly Unknown; a subscript with any other number of indices
    fails with the plain InferenceError. *)
Theorem C5_subscript_of_list_literal
        (T : Tree) (fuel id : nat) (elts : list node) (i : Z)
        (ctx : InferenceContext) :
  let self := Subscript id (List elts) [Const (PInt i)] in
  (forall elt,
      0 <= i -> nth_error elts (Z.to_nat i) = Some elt ->
      infer T (S (S fuel)) self ctx =
      path_wrapper self ctx (gfun (infer T (S fuel) elt ctx)))
  /\ (forall v,
      0 <= i -> nth_error elts (Z.to_nat i) = Some (Const v) ->
      infer T (S (S fuel)) self ctx = path_wrapper self ctx (yield1 (Const v)))
  /\ (Z.of_nat (length elts) <= i \/ i < - Z.of_nat (length elts) ->
      infer T (S (S fuel)) self ctx = path_wrapper self ctx (yield1 YES))
  /\ (forall subs,
      length subs <> 1%nat ->
      infer T (S fuel) (Subscript id (List elts) subs) ctx =
      path_wrapper (Subscript id (List elts) subs) ctx
                   (raise (InferenceError None))).
Proof.
  intros self. split; [|split; [|split]].
  - intros elt Hi Hx. unfold self.
    rewrite (infer_subscript_literal T fuel id (List elts) elts i ctx eq_refl).
    now rewrite (py_index_front elts i elt Hi Hx).
  - intros v Hi Hx. unfold self.
    rewrite (infer_subscript_literal T fuel id (List elts) elts i ctx eq_refl).
    now rewrite (py_index_front elts i (Const v) Hi Hx).
  - intros Hout. unfold self.
    rewrite (infer_subscript_literal T fuel id (List elts) elts i ctx eq_refl).
    now rewrite (py_index_outside elts i Hout).
  - intros subs Hlen. cbn. unfold infer_subscript.
    destruct subs as [|s [|s' subs]]; cbn in *; try reflexivity; lia.
Qed.

Lemma C5_subscript_of_list_literal_witness :
  run (infer bare_tree 2 (Subscript 1 (List (ints [10; 20; 30]))
                                    [Const (PInt 1)]) fresh_context) []
  = ([Const (PInt 20)], Done, [(1%nat, None)])
  /\ run (infer bare_tree 2 (Subscript 1 (List (ints [10; 20; 30]))
                                       [Const (PInt 5)]) fresh_context) []
     = ([YES], Done, [(1%nat, None)])
  /\ run (infer bare_tree 1 (Subscript 1 (List (ints [10; 20; 30]))
                                       [Const (PInt 0); Const (PInt 1)])
                fresh_context) []
     = ([], Raise (InferenceError None), [(1%nat, None)]).
Proof.
  destruct (C5_subscript_of_list_literal bare_tree 0 1 (ints [10; 20; 30]) 1
                                         fresh_context) as (_ & Hin & _ & _).
  destruct (C5_subscript_of_list_literal bare_tree 0 1 (ints [10; 20; 30]) 5
                                         fresh_context) as (_ & _ & Hout & Hmulti).
  split; [|split].
  - rewrite (Hin (PInt 20)); [reflexivity | lia | reflexivity].
  - rewrite Hout; [reflexivity | cbn; lia].
  - rewrite (Hmulti [Const (PInt 0); Const (PInt 1)]);
      [reflexivity | cbn; lia].
Defined.

(** C10: a list or tuple literal subscripted by a literal negative index
    no larger in magnitude than the number of elements infers to what the
    element counted from the end infers to; a literal element is given
    back as it is, so that (1,2,3)[-1] infers to the literal 3. *)
Theorem C10_negative_index_counts_from_end
        (T : Tree) (fuel id : nat) (base : node) (elts : list node) (i : Z)
        (elt : node) (ctx : InferenceContext) :
  is_sequence base = Some elts ->
  i < 0 -> - Z.of_nat (length elts) <= i ->
  nth_error elts (Z.to_nat (Z.of_nat (length elts) + i)) = Some elt ->
  let self := Subscript id base [Const (PInt i)] in
  infer T (S (S fuel)) self ctx =
  path_wrapper self ctx (gfun (infer T (S fuel) elt ctx))
  /\ (forall v, elt = Const v ->
      infer T (S (S fuel)) self ctx = path_wrapper self ctx (yield1 (Const v))).
Proof.
  intros Hb Hneg Hlo Hx self. unfold self.
  rewrite (infer_subscript_literal T fuel id base elts i ctx Hb).
  rewrite (py_index_back elts i elt Hneg Hlo)
    by (now rewrite Z.add_comm).
  split; [reflexivity | now intros v ->].
Qed.

Lemma C10_negative_index_counts_from_end_witness :
  run (infer bare_tree 2 (Subscript 1 (Tuple (ints [1; 2; 3]))
                                    [Const (PInt (-1))]) fresh_context) []
  = ([Const (PInt 3)], Done, [(1%nat, None)]).
Proof.
  destruct (C10_negative_index_counts_from_end
              bare_tree 0 1 (Tuple (ints [1; 2; 3])) (ints [1; 2; 3]) (-1)
              (Const (PInt 3)) fresh_context)
    as [_ H]; [reflexivity | lia | cbn; lia | reflexivity |].
  rewrite (H (PInt 3) eq_refl). reflexivity.
Defined.

(** The index written with the unary minus operator, as [(1,2,3)[-1]] is
    parsed, reaches the same element. *)
Example negative_index_through_unary_minus :
  run (infer bare_tree 3 (Subscript 1 (Tuple (ints [1; 2; 3]))
                                    [UnaryOp 2 "-" (Const (PInt 1))])
             fresh_context) []
  = ([Const (PInt 3)], Done, [(2%nat, None); (1%nat, None)]).
Proof. reflexivity. Qed.

(** ** Binary operators *)

Lemma key_eqb_other_id (i j : nat) (x y : option string) :
  i <> j -> key_eqb (i, x) (j, y) = false.
Proof.
  intros H. unfold key_eqb. cbn.
  now rewrite (proj2 (Nat.eqb_neq i j) H).
Qed.

(** C1: for [<<] and [>>] with two literal integer operands the table's
    implementation is the one of [^]: inference gives the literal
    [a xor b].  On 1 << 2 it gives 3 where the shift is 4. *)
Theorem C1_shift_operators_compute_xor
        (T : Tree) (fuel id : nat) (a b : Z) (ctx : InferenceContext) :
  (infer T (S (S fuel)) (BinOp id "<<" (Const (PInt a)) (Const (PInt b))) ctx
   = path_wrapper (BinOp id "<<" (Const (PInt a)) (Const (PInt b))) ctx
                  (yield1 (Const (PInt (Z.lxor a b)))))
  /\ (infer T (S (S fuel)) (BinOp id ">>" (Const (PInt a)) (Const (PInt b))) ctx
      = path_wrapper (BinOp id ">>" (Const (PInt a)) (Const (PInt b))) ctx
                     (yield1 (Const (PInt (Z.lxor a b)))))
  /\ run (infer T 2 (BinOp 1 "<<" (Const (PInt 1)) (Const (PInt 2)))
                fresh_context) []
     = ([Const (PInt 3)], Done, [(1%nat, None)])
  /\ py_lshift (PInt 1) (PInt 2) = IVal (PInt 4)
  /\ run (infer T 2 (BinOp 1 ">>" (Const (PInt 8)) (Const (PInt 1)))
                fresh_context) []
     = ([Const (PInt 9)], Done, [(1%nat, None)])
  /\ py_rshift (PInt 8) (PInt 1) = IVal (PInt 4).
Proof. repeat split. Qed.

(** C4 as the code has it: 2 + 3 infers to the single literal 5, and
    2 + g() with g found in no scope fails with UnresolvableName, the
    failure of the operand leaving the operation without any value. *)
Theorem C4_sum_of_literals_and_unresolvable_operand
        (T : Tree) (fuel id cid nid : nat) (g : string) (args : list node)
        (sa kw : option node) (frame : option nat) :
  lookup T nid g = (frame, []) ->
  id <> cid -> id <> nid -> cid <> nid ->
  (forall ctx,
      infer T (S (S fuel)) (BinOp id "+" (Const (PInt 2)) (Const (PInt 3))) ctx
      = path_wrapper (BinOp id "+" (Const (PInt 2)) (Const (PInt 3))) ctx
                     (yield1 (Const (PInt 5))))
  /\ run (infer T (S (S (S fuel)))
                (BinOp id "+" (Const (PInt 2))
                       (CallFunc cid (Name nid g) args sa kw))
                fresh_context) []
     = ([], Raise (UnresolvableName g),
        [(nid, None); (cid, None); (id, None)]).
Proof.
  intros Hlook Hic Hin Hcn. split; [reflexivity|].
  cbn. unfold infer_name. rewrite Hlook. cbn.
  rewrite !key_eqb_other_id by congruence.
  reflexivity.
Qed.

Lemma C4_sum_of_literals_and_unresolvable_operand_witness :
  run (infer bare_tree 3
             (BinOp 1 "+" (Const (PInt 2))
                    (CallFunc 2 (Name 3 "g") [] None None))
             fresh_context) []
  = ([], Raise (UnresolvableName "g"),
     [(3%nat, None); (2%nat, None); (1%nat, None)]).
Proof.
  apply (C4_sum_of_literals_and_unresolvable_operand
           bare_tree 0 1 2 3 "g" [] None None None);
    [reflexivity | lia | lia | lia].
Defined.

(** C4 as stated fails: inferring 2 + g() with g unresolvable does not
    give Unknown, it gives no value and ends in UnresolvableName. *)
Lemma C4_unresolvable_operand_is_not_Unknown :
  let r := run (infer bare_tree 3
                      (BinOp 1 "+" (Const (PInt 2))
                             (CallFunc 2 (Name 3 "g") [] None None))
                      fresh_context) [] in
  values r = [] /\ ended r = Raise (UnresolvableName "g")
  /\ values r <> [YES] /\ ended r <> Done.
Proof. cbn. repeat split; discriminate. Qed.

(** ** Calling a class *)

(** C7: the result of calling a class is exactly one value, an Instance
    of that very class, whatever its bases and body, the call site and
    the context; nothing is recorded in the path. *)
Theorem C7_class_call_yields_one_instance
        (rec : node -> InferenceContext -> gen)
        (id : nat) (name : string) (bases code : list node)
        (caller : node) (ctx : InferenceContext) (p : path) :
  infer_call_result rec (Class id name bases code) caller ctx
  = infer_call_result_class (Class id name bases code) caller ctx
  /\ run (infer_call_result rec (Class id name bases code) caller ctx) p
     = ([Instance (Class id name bases code)], Done, p).
Proof. split; reflexivity. Qed.

Example SomeClass_call_infers_to_instance :
  run (infer SomeClass_tree 3 (CallFunc 1 (Name 2 "SomeClass") [] None None)
             fresh_context) []
  = ([Instance SomeClass], Done, [(2%nat, None); (1%nat, None)]).
Proof. reflexivity. Qed.

(** ** The recursion guard *)

(** C2: in [def f(...): return f(...)], inferring the returned call ends
    for every amount of fuel from three on: the callee infers to the
    function, whose only return is the call under inference, found in the
    path and so yielding nothing; the call then has no value and fails
    with InferenceError. *)
Theorem C2_self_call_inference_terminates
        (T : Tree) (fuel cid nid fid : nat) (fname : string)
        (argnames : option (list string)) (defaults : list node)
        (va kw : bool) (ty : ftype) (args : list node)
        (sa kwa : option node) (frame : option nat) :
  let call := CallFunc cid (Name nid fname) args sa kwa in
  let f := Function fid fname argnames defaults va kw ty [Return call] in
  lookup T nid fname = (frame, [f]) ->
  frame <> Some fid ->
  cid <> nid -> cid <> fid -> nid <> fid ->
  run (infer T (S (S (S fuel))) call fresh_context) []
  = ([], Raise (InferenceError None),
     [(fid, None); (nid, None); (cid, None)]).
Proof.
  intros call f Hlook Hframe Hcn Hcf Hnf.
  assert (Hname : _infer_name f frame (Some fname) = None).
  { unfold f, _infer_name. destruct frame as [fr|]; [|reflexivity].
    destruct (Nat.eqb fr fid) eqn:E; [|reflexivity].
    apply Nat.eqb_eq in E. congruence. }
  unfold call at 1. cbn -[_infer_name]. unfold infer_name.
  rewrite Hlook. cbn -[_infer_name]. fold call. fold f. rewrite Hname.
  cbn. rewrite !key_eqb_other_id by congruence. cbn.
  unfold key_eqb; cbn. rewrite !Nat.eqb_refl. cbn.
  reflexivity.
Qed.

Lemma C2_self_call_inference_terminates_witness :
  run (infer self_call_tree 3 self_call fresh_context) []
  = ([], Raise (InferenceError None),
     [(1%nat, None); (3%nat, None); (2%nat, None)]).
Proof.
  apply (C2_self_call_inference_terminates
           self_call_tree 0 2 3 1 "f" (Some ["n"]) [] false false Plain
           [Name 4 "n"] None None None);
    [reflexivity | discriminate | lia | lia | lia].
Defined.

(** ** Parameters of a called function *)

Lemma CallContext_init_positional (x : node) :
  is_Keyword x = false ->
  CallContext_init [x] None None = mkCallContext [x] [] None None.
Proof. destruct x; cbn; intros H; try discriminate; reflexivity. Qed.

(** C3 as the code has it, for [def f(a, b=v)] called as [f(x)]: under
    the call binding, parameter [b] infers to the default alone, with no
    Unknown after it, and parameter [a] infers to what [x] infers to once
    the binding is cleared; it is without a call binding that [b] gives
    the default followed by Unknown. *)
Theorem C3_parameters_of_a_called_function
        (T : Tree) (fuel fid : nat) (fname a b : string) (v : pyval)
        (code : list node) (x : node) (bn : option node) :
  a <> b -> is_Keyword x = false ->
  let f := Function fid fname (Some [a; b]) [Const v] false false Plain code in
  let cc := CallContext_init [x] None None in
  let bound name := mkContext (Some name) (Some cc) bn in
  let unbound name := mkContext (Some name) None bn in
  infer T (S (S fuel)) f (bound b) = path_wrapper f (bound b) (yield1 (Const v))
  /\ infer T (S fuel) f (bound a)
     = path_wrapper f (bound a) (infer T fuel x (unbound a))
  /\ infer T (S (S fuel)) f (unbound b)
     = path_wrapper f (unbound b) (GYield (Const v) (yield1 YES)).
Proof.
  intros Hab Hx f cc bound unbound.
  assert (Hba : String.eqb b a = false) by (apply String.eqb_neq; congruence).
  subst bound unbound cc. cbn beta.
  rewrite (CallContext_init_positional x Hx).
  split; [|split].
  - cbn. unfold infer_function, infer_argument. cbn.
    rewrite Hba, String.eqb_refl. reflexivity.
  - cbn. unfold infer_function, infer_argument. cbn.
    rewrite String.eqb_refl. reflexivity.
  - cbn. unfold infer_function. cbn.
    rewrite Hba, String.eqb_refl. reflexivity.
Qed.

Lemma C3_parameters_of_a_called_function_witness :
  run (infer bare_tree 2 f_a_b (f_a_b_called "b")) []
  = ([Const (PInt 1)], Done, [(1%nat, Some "b")])
  /\ run (infer bare_tree 2 f_a_b (f_a_b_called "a")) []
     = ([Const (PInt 42)], Done, [(1%nat, Some "a")]).
Proof.
  destruct (C3_parameters_of_a_called_function
              bare_tree 0 1 "f" "a" "b" (PInt 1) [Pass] (Const (PInt 42)) None)
    as (Hb & _ & _); [discriminate | reflexivity |].
  destruct (C3_parameters_of_a_called_function
              bare_tree 1 1 "f" "a" "b" (PInt 1) [Pass] (Const (PInt 42)) None)
    as (_ & Ha & _); [discriminate | reflexivity |].
  split.
  - unfold f_a_b, f_a_b_called. rewrite Hb. reflexivity.
  - unfold f_a_b, f_a_b_called. rewrite Ha. reflexivity.
Defined.

(** C3 as stated fails: under the call binding of [f(x)], parameter [b]
    of [def f(a, b=1)] gives the literal 1 and nothing more. *)
Lemma C3_bound_default_has_no_Unknown :
  let r := run (infer bare_tree 2 f_a_b (f_a_b_called "b")) [] in
  values r = [Const (PInt 1)] /\ values r <> [Const (PInt 1); YES].
Proof. cbn. split; [reflexivity | discriminate]. Qed.

(** ** Parameters of a callee without argument names *)




(** ** Imports *)

(** C8 as the code has it: when the name of the imported module, made
    relative to the importing module, is the importing module's own name,
    inferring the import yields nothing and raises the plain
    InferenceError carrying the module name; one unit of fuel is enough
    and the module is never loaded. *)
Theorem C8_import_of_own_package_fails
        (T : Tree) (fuel id : nat) (names : list (string * option string))
        (ctx : InferenceContext) (name modname : string) :
  lookupname ctx = Some name ->
  real_name T (Import id names) name = inl modname ->
  relative_name T (root T id) modname = node_name (root T id) ->
  infer T (S fuel) (Import id names) ctx
  = path_wrapper (Import id names) ctx (raise (InferenceError (Some modname)))
  /\ failure_kind_of (InferenceError (Some modname)) = InferenceFailure.
Proof.
  intros Hname Hreal Hrel. split; [|reflexivity].
  cbn -[real_name relative_name root]. unfold infer_import.
  rewrite Hname, Hreal. unfold _imported_module_astng.
  cbn -[real_name relative_name root].
  now rewrite Hrel, String.eqb_refl.
Qed.

Lemma C8_import_of_own_package_fails_witness :
  run (infer pkg_tree 1 import_pkg (mkContext (Some "pkg") None None)) []
  = ([], Raise (InferenceError (Some "pkg")), [(1%nat, Some "pkg")]).
Proof.
  destruct (C8_import_of_own_package_fails
              pkg_tree 0 1 [("pkg", None)] (mkContext (Some "pkg") None None)
              "pkg" "pkg" eq_refl eq_refl eq_refl) as [H _].
  unfold import_pkg. rewrite H. reflexivity.
Defined.

(** C8 as stated fails: the failure of the self-import is the plain
    InferenceError, not the failure kind of module resolution. *)
Lemma C8_self_import_failure_is_generic :
  let r := run (infer pkg_tree 1 import_pkg
                      (mkContext (Some "pkg") None None)) [] in
  ended r = Raise (InferenceError (Some "pkg"))
  /\ failure_kind_of (InferenceError (Some "pkg")) <> ModuleResolutionFailure
  /\ ended r <> Raise ASTNGBuildingException.
Proof. cbn. repeat split; discriminate. Qed.

(** ** Destructuring assignments *)





Example call_g_has_two_candidates :
  values (run (infer two_returns_tree 3 call_g fresh_context) [])
  = [Const (PInt 1); Tuple [Const (PInt 2); Const (PInt 3)]].
Proof. reflexivity. Qed.


(** * Further properties *)

(** ** What a call site binds *)

Lemma CallContext_fill_spec (args pos : list node)
      (nargs : list (string * node)) :
  fst (CallContext_fill args pos nargs) = pos ++ positional_args args
  /\ forall name,
      nargs_get (snd (CallContext_fill args pos nargs)) name
      = fold_left (keyword_step name) args (nargs_get nargs name).
Proof.
  revert pos nargs. induction args as [|a args IH]; intros pos nargs.
  - cbn. split; [now rewrite app_nil_r | reflexivity].
  - destruct a; cbn; try exact (IH _ _);
      match goal with
      | |- fst (CallContext_fill _ (_ ++ [?x]) _) = _ /\ _ =>
          destruct (IH (pos ++ [x]) nargs) as [H1 H2];
          split; [rewrite H1, <- app_assoc; reflexivity | exact H2]
      end.
Qed.

(** X1: a call context keeps the arguments that are not keywords, in the
    order of the call, as its positional arguments, and looks a keyword
    up to the expression of the last keyword argument of that name; the
    star arguments are stored as given. *)
Theorem CallContext_init_binds
        (args : list node) (starargs dstarargs : option node) (name : string) :
  let cc := CallContext_init args starargs dstarargs in
  cc_args cc = positional_args args
  /\ nargs_get (cc_nargs cc) name = last_keyword args name
  /\ cc_starargs cc = starargs /\ cc_dstarargs cc = dstarargs.
Proof.
  unfold CallContext_init.
  destruct (CallContext_fill_spec args [] []) as [H1 H2].
  destruct (CallContext_fill args [] []) as [pos nargs]. cbn in *.
  repeat split; [exact H1 | apply H2].
Qed.

(** ** The call binder *)

Lemma run_gseq_stop (g : gen) (p : path) : run (gseq g stop) p = run g p.
Proof.
  revert p. induction g as [e|v g IH|key k IH]; intros p.
  - destruct e; reflexivity.
  - cbn. now rewrite IH.
  - cbn. destruct (in_path key p); apply IH.
Qed.

(** X2: when no keyword argument names it, the first parameter of a
    method is bound to an Instance of the receiver and that of a class
    method to the receiver itself, the receiver being the context's bound
    node or else the frame around the function; the arguments of the
    call are not looked at. *)
Theorem infer_argument_binds_receiver
        (T : Tree) (rec : node -> InferenceContext -> gen) (cc : CallContext)
        (f : node) (name : string) (others : list string)
        (ctx : InferenceContext) :
  nargs_get (cc_nargs cc) name = None ->
  func_argnames f = Some (name :: others) ->
  binds_receiver f = true ->
  infer_argument T rec cc f name ctx
  = yield1 (match func_type f with
            | ClassMethod => receiver T f ctx
            | _ => Instance (receiver T f ctx)
            end).
Proof.
  intros Hk Hnames Hb. unfold infer_argument, receiver.
  rewrite Hk, Hnames. cbn. rewrite String.eqb_refl.
  unfold binds_receiver in Hb.
  destruct (func_type f); try discriminate; reflexivity.
Qed.

Lemma infer_argument_binds_receiver_witness :
  infer_argument bare_tree (infer bare_tree 1)
                 (CallContext_init [Const (PInt 5)] None None) method_m "self"
                 (mkContext (Some "self") None (Some SomeClass))
  = yield1 (Instance SomeClass).
Proof.
  apply (infer_argument_binds_receiver
           bare_tree (infer bare_tree 1)
           (CallContext_init [Const (PInt 5)] None None) method_m "self" ["x"]);
    reflexivity.
Defined.

(** X3: a parameter that no keyword argument names, and that is not the
    receiver of a method, is supplied by the positional argument at the
    parameter's declared index when the call has one there. *)
Theorem infer_argument_positional
        (T : Tree) (rec : node -> InferenceContext -> gen) (cc : CallContext)
        (f : node) (name : string) (argnames : list string) (i : nat)
        (arg : node) (ctx : InferenceContext) :
  nargs_get (cc_nargs cc) name = None ->
  func_argnames f = Some argnames ->
  list_index name argnames = Some i ->
  i <> 0%nat \/ binds_receiver f = false ->
  nth_error (cc_args cc) i = Some arg ->
  infer_argument T rec cc f name ctx = rec arg ctx.
Proof.
  intros Hk Hnames Hi Hplain Harg. unfold infer_argument.
  rewrite Hk, Hnames, Hi, Harg. unfold binds_receiver in Hplain.
  destruct i as [|i]; [|reflexivity].
  destruct Hplain as [H|H]; [congruence|].
  destruct (func_type f); try discriminate; reflexivity.
Qed.

Lemma infer_argument_positional_witness :
  infer_argument bare_tree (infer bare_tree 1)
                 (CallContext_init [Const (PInt 5); Const (PInt 6)] None None)
                 f_x_y "y" fresh_context
  = yield1 (Const (PInt 6)).
Proof.
  apply (infer_argument_positional
           bare_tree (infer bare_tree 1)
           (CallContext_init [Const (PInt 5); Const (PInt 6)] None None)
           f_x_y "y" ["x"; "y"] 1 (Const (PInt 6)) fresh_context);
    try reflexivity.
  left. discriminate.
Defined.

(** X4: when the call has no positional argument at the parameter's
    declared index and its star argument infers to one tuple or list
    literal, the parameter is supplied by the element of that literal at
    the same declared index (the index is not reduced by the number of
    positional arguments); an element beyond the literal leaves the
    binder to its remaining steps. *)
Theorem infer_argument_from_star_literal
        (T : Tree) (rec : node -> InferenceContext -> gen) (cc : CallContext)
        (f : node) (name : string) (argnames : list string) (i : nat)
        (s lit : node) (elts : list node) (ctx : InferenceContext) :
  nargs_get (cc_nargs cc) name = None ->
  func_argnames f = Some argnames ->
  list_index name argnames = Some i ->
  i <> 0%nat \/ binds_receiver f = false ->
  nth_error (cc_args cc) i = None ->
  cc_starargs cc = Some s ->
  rec s ctx = yield1 lit ->
  is_sequence lit = Some elts ->
  (forall elt p,
      nth_error elts i = Some elt -> infers_by_default elt = false ->
      run (infer_argument T rec cc f name ctx) p = run (rec elt ctx) p)
  /\ (nth_error elts i = None ->
      infer_argument T rec cc f name ctx
      = infer_argument_tail rec cc f name ctx).
Proof.
  intros Hk Hnames Hi Hplain Harg Hs Hrec Hlit.
  assert (Hstep : infer_argument T rec cc f name ctx
                  = match its_step rec (PInt (Z.of_nat i)) ctx [] lit with
                    | inl [] => infer_argument_tail rec cc f name ctx
                    | inl its => chain its
                    | inr e => GStop e
                    end).
  { unfold infer_argument. rewrite Hk, Hnames, Hi, Harg, Hs, Hrec.
    unfold binds_receiver in Hplain. cbn.
    destruct (its_step rec (PInt (Z.of_nat i)) ctx [] lit) as [[|g its]|e];
      destruct i as [|i]; try reflexivity;
      destruct Hplain as [H|H]; try congruence;
      destruct (func_type f); try discriminate; reflexivity. }
  assert (Hget : getitem rec lit (PInt (Z.of_nat i))
                 = tl_getitem elts (PInt (Z.of_nat i)))
    by (destruct lit; cbn in Hlit; try discriminate;
        injection Hlit as <-; reflexivity).
  assert (Hyes : is_YES lit = false)
    by (destruct lit; cbn in Hlit; try discriminate; reflexivity).
  split.
  - intros elt p Helt Hdef. rewrite Hstep. unfold its_step.
    rewrite Hyes, Hget. unfold tl_getitem.
    rewrite (py_index_front elts (Z.of_nat i) elt)
      by (try lia; now rewrite Nat2Z.id).
    rewrite Hdef. cbn. apply run_gseq_stop.
  - intros Hnone. rewrite Hstep. unfold its_step.
    rewrite Hyes, Hget. unfold tl_getitem.
    rewrite py_index_outside; [reflexivity|].
    left. apply nth_error_None in Hnone. lia.
Qed.

Lemma infer_argument_from_star_literal_witness :
  run (infer_argument bare_tree (infer bare_tree 1)
         (mkCallContext [Const (PInt 1)] [] (Some (Tuple (ints [2; 3]))) None)
         f_x_y "y" fresh_context) []
  = ([Const (PInt 3)], Done, []).
Proof.
  assert (Hplain : 1%nat <> 0%nat \/ binds_receiver f_x_y = false)
    by (left; discriminate).
  destruct (infer_argument_from_star_literal
              bare_tree (infer bare_tree 1)
              (mkCallContext [Const (PInt 1)] [] (Some (Tuple (ints [2; 3]))) None)
              f_x_y "y" ["x"; "y"] 1 (Tuple (ints [2; 3]))
              (Tuple (ints [2; 3])) (ints [2; 3]) fresh_context
              eq_refl eq_refl eq_refl Hplain eq_refl eq_refl eq_refl eq_refl)
    as [H _].
  rewrite (H (Const (PInt 3)) [] eq_refl eq_refl). reflexivity.
Defined.

(** X5: a parameter the call supplies neither by keyword, nor by
    position, nor through star arguments, and that is no collector,
    infers to what its default infers to; without a default the binder
    raises InferenceError carrying the parameter's name. *)
Theorem infer_argument_falls_back_to_default
        (T : Tree) (rec : node -> InferenceContext -> gen) (cc : CallContext)
        (f : node) (name : string) (argnames : list string) (i : nat)
        (ctx : InferenceContext) :
  nargs_get (cc_nargs cc) name = None ->
  func_argnames f = Some argnames ->
  list_index name argnames = Some i ->
  i <> 0%nat \/ binds_receiver f = false ->
  nth_error (cc_args cc) i = None ->
  cc_starargs cc = None -> cc_dstarargs cc = None ->
  mularg_class f name = None ->
  infer_argument T rec cc f name ctx
  = match default_value f name with
    | inl d => rec d ctx
    | inr _ => raise (InferenceError (Some name))
    end.
Proof.
  intros Hk Hnames Hi Hplain Harg Hs Hd Hm. unfold infer_argument.
  rewrite Hk, Hnames, Hi, Harg, Hs. unfold infer_argument_tail.
  rewrite Hd, Hm. unfold binds_receiver in Hplain.
  assert (Hdef : match default_value f name with
                 | inl d => rec d ctx
                 | inr NoDefault => raise (InferenceError (Some name))
                 | inr e => raise e
                 end
                 = match default_value f name with
                   | inl d => rec d ctx
                   | inr _ => raise (InferenceError (Some name))
                   end).
  { unfold default_value. rewrite Hnames, Hi.
    destruct (_ && _); [destruct (nth_error (func_defaults f) _)|];
      reflexivity. }
  rewrite Hdef.
  destruct i as [|i]; [|reflexivity].
  destruct Hplain as [H|H]; [congruence|].
  destruct (func_type f); try discriminate; reflexivity.
Qed.

Lemma infer_argument_falls_back_to_default_witness :
  infer_argument bare_tree (infer bare_tree 1)
                 (CallContext_init [Const (PInt 5)] None None)
                 f_x_y "y" fresh_context
  = raise (InferenceError (Some "y"))
  /\ infer_argument bare_tree (infer bare_tree 1)
                    (CallContext_init [Const (PInt 5)] None None)
                    f_a_b "b" fresh_context
     = yield1 (Const (PInt 1)).
Proof.
  split.
  - apply (infer_argument_falls_back_to_default
             bare_tree (infer bare_tree 1)
             (CallContext_init [Const (PInt 5)] None None)
             f_x_y "y" ["x"; "y"] 1 fresh_context); try reflexivity.
    left. discriminate.
  - apply (infer_argument_falls_back_to_default
             bare_tree (infer bare_tree 1)
             (CallContext_init [Const (PInt 5)] None None)
             f_a_b "b" ["a"; "b"] 1 fresh_context); try reflexivity.
    left. discriminate.
Defined.

(** ** Parameters without a call binding *)

Lemma default_value_error (f : node) (name : string) (e : exc) :
  default_value f name = inr e -> e = NoDefault.
Proof.
  unfold default_value.
  destruct (func_argnames f); [|congruence].
  destruct (list_index name l); [|congruence].
  destruct (_ && _); [|congruence].
  destruct (nth_error _ _); congruence.
Qed.

Lemma list_index_later (name : string) (argnames : list string) (i : nat) :
  list_index name argnames = Some i -> i <> 0%nat ->
  String.eqb name (hd EmptyString argnames) = false.
Proof.
  destruct argnames as [|a rest]; [discriminate|]. cbn.
  destruct (String.eqb name a); [|reflexivity].
  intros H Hi. injection H as <-. congruence.
Qed.

(** X6: without a call binding, asking a function for a name that is not
    one of its parameters raises InferenceError; the first parameter of a
    method is an Instance of the frame around it, and that of a class
    method the frame itself, whatever the context's bound node; any
    other parameter that is no collector, of a plain function or of a
    method alike, gives what its default infers to followed by Unknown,
    or Unknown alone when it has no default. *)
Theorem infer_function_unbound_parameter
        (T : Tree) (rec : node -> InferenceContext -> gen) (f : node)
        (name : string) (argnames : list string) (bn : option node) :
  func_argnames f = Some argnames ->
  let ctx := mkContext (Some name) None bn in
  (list_index name argnames = None ->
   infer_function T rec f ctx = raise (InferenceError None))
  /\ (func_type f = Method -> hd_error argnames = Some name ->
      infer_function T rec f ctx
      = yield1 (Instance (parent_frame T (func_id f))))
  /\ (func_type f = ClassMethod -> hd_error argnames = Some name ->
      infer_function T rec f ctx = yield1 (parent_frame T (func_id f)))
  /\ (forall i,
         list_index name argnames = Some i ->
         i <> 0%nat \/ binds_receiver f = false ->
         mularg_class f name = None ->
         infer_function T rec f ctx
         = match default_value f name with
           | inl d => gseq (rec d ctx) (yield1 YES)
           | inr _ => yield1 YES
           end).
Proof.
  intros Hnames ctx. split; [|split; [|split]].
  - intros Hi. unfold infer_function. cbn. now rewrite Hnames, Hi.
  - intros Hty Hhd. unfold infer_function. cbn. rewrite Hnames.
    destruct argnames as [|a rest]; [discriminate|].
    injection Hhd as ->. cbn. now rewrite String.eqb_refl, Hty.
  - intros Hty Hhd. unfold infer_function. cbn. rewrite Hnames.
    destruct argnames as [|a rest]; [discriminate|].
    injection Hhd as ->. cbn. now rewrite String.eqb_refl, Hty.
  - intros i Hi Hb Hm. unfold infer_function. cbn.
    rewrite Hnames, Hi, Hm. unfold binds_receiver in Hb.
    assert (Hdef : match default_value f name with
                   | inl d => gseq (rec d (copy_context ctx)) (yield1 YES)
                   | inr NoDefault => yield1 YES
                   | inr e => raise e
                   end
                   = match default_value f name with
                     | inl d => gseq (rec d ctx) (yield1 YES)
                     | inr _ => yield1 YES
                     end).
    { destruct (default_value f name) as [d|e] eqn:E; [reflexivity|].
      now rewrite (default_value_error f name e E). }
    fold ctx. rewrite Hdef.
    destruct Hb as [Hb|Hb].
    + now rewrite (list_index_later name argnames i Hi Hb).
    + destruct (String.eqb name (hd EmptyString argnames)); [|reflexivity].
      destruct (func_type f); try discriminate; reflexivity.
Qed.

Lemma infer_function_unbound_parameter_witness :
  infer_function bare_tree (infer bare_tree 1) f_x_y
                 (mkContext (Some "z") None None)
  = raise (InferenceError None)
  /\ infer_function SomeClass_tree (infer SomeClass_tree 1) method_m
                    (mkContext (Some "self") None None)
     = yield1 (Instance SomeClass)
  /\ infer_function bare_tree (infer bare_tree 1) f_x_y
                    (mkContext (Some "y") None None)
     = yield1 YES
  /\ infer_function SomeClass_tree (infer SomeClass_tree 1) method_m
                    (mkContext (Some "x") None None)
     = yield1 YES
  /\ infer_function SomeClass_tree (infer SomeClass_tree 1)
                    (Function 3 "m" (Some ["cls"; "x"]) [] false false
                              ClassMethod [Pass])
                    (mkContext (Some "cls") None None)
     = yield1 SomeClass.
Proof.
  destruct (infer_function_unbound_parameter
              bare_tree (infer bare_tree 1) f_x_y "z" ["x"; "y"] None eq_refl)
    as (Hz & _ & _ & _).
  destruct (infer_function_unbound_parameter
              SomeClass_tree (infer SomeClass_tree 1) method_m "self"
              ["self"; "x"] None eq_refl) as (_ & Hself & _ & _).
  destruct (infer_function_unbound_parameter
              bare_tree (infer bare_tree 1) f_x_y "y" ["x"; "y"] None eq_refl)
    as (_ & _ & _ & Hy).
  destruct (infer_function_unbound_parameter
              SomeClass_tree (infer SomeClass_tree 1) method_m "x"
              ["self"; "x"] None eq_refl) as (_ & _ & _ & Hx).
  destruct (infer_function_unbound_parameter
              SomeClass_tree (infer SomeClass_tree 1)
              (Function 3 "m" (Some ["cls"; "x"]) [] false false
                        ClassMethod [Pass])
              "cls" ["cls"; "x"] None eq_refl) as (_ & _ & Hcls & _).
  assert (Hlater : 1%nat <> 0%nat \/ binds_receiver method_m = false)
    by (left; discriminate).
  assert (Hplain : 1%nat <> 0%nat \/ binds_receiver f_x_y = false)
    by (right; reflexivity).
  split; [|split; [|split; [|split]]].
  - exact (Hz eq_refl).
  - exact (Hself eq_refl eq_refl).
  - exact (Hy 1%nat eq_refl Hplain eq_refl).
  - exact (Hx 1%nat eq_refl Hlater eq_refl).
  - exact (Hcls eq_refl eq_refl).
Defined.

(** ** Calls *)




(** [def p(): pass] called as [p()], from the name to the failure. *)
Example call_of_pass_function :
  run (infer (one_name_tree "p" no_return) 3
             (CallFunc 1 (Name 2 "p") [] None None) fresh_context) []
  = ([], Raise (InferenceError None),
     [(5%nat, None); (2%nat, None); (1%nat, None)]).
Proof. reflexivity. Qed.





(** [def h(): return nowhere; return 2] with [nowhere] in no scope. *)
Example call_result_with_unresolvable_return :
  run (infer_call_result (infer bare_tree 2)
         (Function 5 "h" (Some []) [] false false Plain
                   [Return (Name 6 "nowhere"); Return (Const (PInt 2))])
         Pass fresh_context) []
  = ([YES; Const (PInt 2)], Done, [(6%nat, None)]).
Proof. reflexivity. Qed.



(** ** A call from end to end *)

(** X11: with [def f(a): return a] in scope, the calls [f(v)] and
    [f(a=v)] on a literal [v] both infer to exactly that literal and end
    normally, for any fuel from six on: the returned name resolves to the
    function as the owner of parameter [a], which the call binding
    supplies. *)
Theorem identity_call_infers_to_argument
        (T : Tree) (fuel cid nid fid rid : nat) (fname a : string)
        (v : pyval) (va kwa : bool) :
  let f := Function fid fname (Some [a]) [] va kwa Plain
                    [Return (Name rid a)] in
  lookup T nid fname = (None, [f]) ->
  lookup T rid a = (Some fid, [f]) ->
  cid <> nid -> cid <> fid -> cid <> rid -> nid <> fid -> nid <> rid ->
  fid <> rid ->
  values (run (infer T (6 + fuel)
                     (CallFunc cid (Name nid fname) [Const v] None None)
                     fresh_context) []) = [Const v]
  /\ ended (run (infer T (6 + fuel)
                       (CallFunc cid (Name nid fname) [Const v] None None)
                       fresh_context) []) = Done
  /\ values (run (infer T (6 + fuel)
                        (CallFunc cid (Name nid fname)
                                  [Keyword a (Const v)] None None)
                        fresh_context) []) = [Const v]
  /\ ended (run (infer T (6 + fuel)
                       (CallFunc cid (Name nid fname)
                                 [Keyword a (Const v)] None None)
                       fresh_context) []) = Done.
Proof.
  intros f Hf Ha Hcn Hcf Hcr Hnf Hnr Hfr.
  assert (Hself : _infer_name f None (Some fname) = None) by reflexivity.
  assert (Hown : _infer_name f (Some fid) (Some a) = Some a)
    by (cbn; now rewrite Nat.eqb_refl).
  assert (Hrun : forall arg,
             (arg = Const v \/ arg = Keyword a (Const v)) ->
             run (infer T (6 + fuel) (CallFunc cid (Name nid fname) [arg] None None)
                        fresh_context) []
             = ([Const v], Done,
                [(fid, Some a); (rid, None); (fid, None); (nid, None);
                 (cid, None)])).
  { intros arg Harg.
    change (6 + fuel)%nat with (S (S (S (S (S (S fuel)))))).
    cbn -[_infer_name CallContext_init]. unfold infer_name.
    rewrite Hf. cbn -[_infer_name CallContext_init]. fold f. rewrite Hself.
    cbn -[_infer_name CallContext_init].
    rewrite !key_eqb_other_id by congruence.
    cbn -[_infer_name CallContext_init].
    unfold infer_name. rewrite Ha.
    cbn -[_infer_name CallContext_init]. fold f. rewrite Hown.
    cbn -[_infer_name CallContext_init].
    rewrite !key_eqb_other_id by congruence.
    unfold key_eqb. cbn -[_infer_name CallContext_init].
    rewrite !Nat.eqb_refl. cbn -[_infer_name CallContext_init].
    rewrite ?andb_false_r. cbn -[_infer_name CallContext_init].
    destruct Harg as [-> | ->]; cbn; unfold infer_argument; cbn;
      rewrite ?String.eqb_refl; reflexivity. }
  rewrite (Hrun (Const v)) by (now left).
  rewrite (Hrun (Keyword a (Const v))) by (now right).
  repeat split.
Qed.

Lemma identity_call_infers_to_argument_witness :
  values (run (infer identity_tree 6
                     (CallFunc 1 (Name 2 "f") [Const (PInt 7)] None None)
                     fresh_context) []) = [Const (PInt 7)]
  /\ ended (run (infer identity_tree 6
                       (CallFunc 1 (Name 2 "f") [Const (PInt 7)] None None)
                       fresh_context) []) = Done
  /\ values (run (infer identity_tree 6
                        (CallFunc 1 (Name 2 "f")
                                  [Keyword "a" (Const (PInt 7))] None None)
                        fresh_context) []) = [Const (PInt 7)]
  /\ ended (run (infer identity_tree 6
                       (CallFunc 1 (Name 2 "f")
                                 [Keyword "a" (Const (PInt 7))] None None)
                       fresh_context) []) = Done.
Proof.
  apply (identity_call_infers_to_argument
           identity_tree 0 1 2 5 6 "f" "a" (PInt 7) false false);
    try reflexivity; lia.
Defined.

(** ** Operators on literals *)

Ltac case_operator op H :=
  repeat match type of H with
         | (if String.eqb op ?s then _ else _) = _ =>
             let E := fresh "E" in
             destruct (String.eqb op s) eqn:E;
             [apply String.eqb_eq in E; subst op | clear E]
         end.

(** X12: for [+], [-], [*], [&], [|] and [^] with two literal integer
    operands, inference gives exactly the literal of the integer
    operation, on unbounded integers. *)
Theorem binop_on_integer_literals
        (T : Tree) (fuel id : nat) (op : string) (fn : Z -> Z -> Z)
        (a b : Z) (ctx : InferenceContext) :
  int_binop op = Some fn ->
  infer T (S (S fuel)) (BinOp id op (Const (PInt a)) (Const (PInt b))) ctx
  = path_wrapper (BinOp id op (Const (PInt a)) (Const (PInt b))) ctx
                 (yield1 (Const (PInt (fn a b)))).
Proof.
  intros H. unfold int_binop in H. case_operator op H;
    try discriminate; injection H as <-; reflexivity.
Qed.

Lemma binop_on_integer_literals_witness :
  run (infer bare_tree 2 (BinOp 1 "*" (Const (PInt 6)) (Const (PInt (-7))))
             fresh_context) []
  = ([Const (PInt (-42))], Done, [(1%nat, None)]).
Proof.
  rewrite (binop_on_integer_literals bare_tree 0 1 "*" Z.mul 6 (-7)
                                     fresh_context eq_refl).
  reflexivity.
Defined.

(** X13: for [/], [//] and [%] with two literal integer operands, a
    divisor other than zero gives the literal of the floor division or
    of its remainder, and a zero divisor ends the inference with
    ZeroDivisionError and no value: only TypeError is turned into
    Unknown. *)
Theorem binop_division_on_integer_literals
        (T : Tree) (fuel id : nat) (op : string) (fn : Z -> Z -> Z)
        (a b : Z) (ctx : InferenceContext) :
  div_binop op = Some fn ->
  infer T (S (S fuel)) (BinOp id op (Const (PInt a)) (Const (PInt b))) ctx
  = path_wrapper (BinOp id op (Const (PInt a)) (Const (PInt b))) ctx
                 (if b =? 0 then raise ZeroDivisionError
                  else yield1 (Const (PInt (fn a b)))).
Proof.
  intros H. unfold div_binop in H. case_operator op H;
    try discriminate; injection H as <-;
    cbn; unfold infer_binop; cbn; unfold py_div, py_floordiv, py_mod; cbn;
    destruct (b =? 0); reflexivity.
Qed.

Lemma binop_division_on_integer_literals_witness :
  run (infer bare_tree 2 (BinOp 1 "//" (Const (PInt (-7))) (Const (PInt 2)))
             fresh_context) []
  = ([Const (PInt (-4))], Done, [(1%nat, None)])
  /\ run (infer bare_tree 2 (BinOp 1 "%" (Const (PInt 1)) (Const (PInt 0)))
                fresh_context) []
     = ([], Raise ZeroDivisionError, [(1%nat, None)]).
Proof.
  split.
  - rewrite (binop_division_on_integer_literals
               bare_tree 0 1 "//" Z.div (-7) 2 fresh_context eq_refl).
    reflexivity.
  - rewrite (binop_division_on_integer_literals
               bare_tree 0 1 "%" Z.modulo 1 0 fresh_context eq_refl).
    reflexivity.
Defined.

(** X14: for every operator of the table, a literal integer on the left
    and the literal None on the right infer to exactly Unknown: the
    TypeError of the operation is caught for that pair. *)
Theorem binop_type_error_gives_Unknown
        (T : Tree) (fuel id : nat) (op : string)
        (impl : pyval -> pyval -> impl_result) (meth : string)
        (a : Z) (ctx : InferenceContext) :
  BIN_OP_IMPL op = Some (impl, meth) ->
  infer T (S (S fuel)) (BinOp id op (Const (PInt a)) (Const PNone)) ctx
  = path_wrapper (BinOp id op (Const (PInt a)) (Const PNone)) ctx (yield1 YES).
Proof.
  intros H. unfold BIN_OP_IMPL in H. case_operator op H;
    try discriminate; reflexivity.
Qed.

Lemma binop_type_error_gives_Unknown_witness :
  run (infer bare_tree 2 (BinOp 1 "-" (Const (PInt 1)) (Const PNone))
             fresh_context) []
  = ([YES], Done, [(1%nat, None)]).
Proof.
  rewrite (binop_type_error_gives_Unknown bare_tree 0 1 "-" py_sub "__sub__"
                                          1 fresh_context eq_refl).
  reflexivity.
Defined.

(** X15: when the left operand infers to one value that is not a
    literal, the right operand is not inferred at all: the operation
    gives that value if it has the operator's method and Unknown
    otherwise. *)
Theorem binop_non_literal_left_operand
        (T : Tree) (rec : node -> InferenceContext -> gen) (op : string)
        (impl : pyval -> pyval -> impl_result) (meth : string)
        (lhs rhs value : node) (ctx : InferenceContext) :
  BIN_OP_IMPL op = Some (impl, meth) ->
  rec lhs ctx = yield1 value -> is_Const value = false ->
  infer_binop T rec op lhs rhs ctx
  = yield1 (if has_attr T value meth then value else YES).
Proof.
  intros Hop Hl Hv. unfold infer_binop. rewrite Hop.
  unfold _infer_binary_operator. rewrite Hl. cbn.
  destruct value; cbn in Hv; try discriminate; cbn;
    destruct (has_attr T _ meth); reflexivity.
Qed.

Lemma binop_non_literal_left_operand_witness :
  infer_binop bare_tree (infer bare_tree 1) "+" (List [Const (PInt 1)])
              (Name 9 "nowhere") fresh_context
  = yield1 YES.
Proof.
  apply (binop_non_literal_left_operand
           bare_tree (infer bare_tree 1) "+" py_add "__add__"
           (List [Const (PInt 1)]) (Name 9 "nowhere") (List [Const (PInt 1)])
           fresh_context); reflexivity.
Defined.

(** X16: the unary operators on a literal: [-] and [+] of an integer
    give the negated and the same integer, either of them on a string
    gives Unknown, and [not] gives the boolean opposite to the literal's
    truth value. *)
Theorem unaryop_on_literals
        (T : Tree) (fuel id : nat) (n : Z) (s : string) (v : pyval)
        (ctx : InferenceContext) :
  infer T (S (S fuel)) (UnaryOp id "-" (Const (PInt n))) ctx
  = path_wrapper (UnaryOp id "-" (Const (PInt n))) ctx
                 (yield1 (Const (PInt (- n))))
  /\ infer T (S (S fuel)) (UnaryOp id "+" (Const (PInt n))) ctx
     = path_wrapper (UnaryOp id "+" (Const (PInt n))) ctx
                    (yield1 (Const (PInt n)))
  /\ infer T (S (S fuel)) (UnaryOp id "-" (Const (PStr s))) ctx
     = path_wrapper (UnaryOp id "-" (Const (PStr s))) ctx (yield1 YES)
  /\ infer T (S (S fuel)) (UnaryOp id "+" (Const (PStr s))) ctx
     = path_wrapper (UnaryOp id "+" (Const (PStr s))) ctx (yield1 YES)
  /\ infer T (S (S fuel)) (UnaryOp id "not" (Const v)) ctx
     = path_wrapper (UnaryOp id "not" (Const v)) ctx
                    (yield1 (Const (PBool (negb (py_truth v))))).
Proof. repeat split. Qed.

(** X17: negating twice gives the literal back: [-(-n)] on a literal
    integer [n] infers to exactly [n]. *)
Theorem double_negation_gives_literal_back
        (T : Tree) (fuel i j : nat) (n : Z) :
  i <> j ->
  run (infer T (S (S (S fuel)))
             (UnaryOp i "-" (UnaryOp j "-" (Const (PInt n)))) fresh_context) []
  = ([Const (PInt n)], Done, [(j, None); (i, None)]).
Proof.
  intros Hij. cbn. rewrite key_eqb_other_id by congruence. cbn.
  now rewrite Z.opp_involutive.
Qed.

Lemma double_negation_gives_literal_back_witness :
  run (infer bare_tree 3 (UnaryOp 1 "-" (UnaryOp 2 "-" (Const (PInt 5))))
             fresh_context) []
  = ([Const (PInt 5)], Done, [(2%nat, None); (1%nat, None)]).
Proof.
  apply (double_negation_gives_literal_back bare_tree 0 1 2 5). lia.
Defined.

(** X18: when the operand infers to one value that is not a literal,
    [not] gives Unknown, and [-] and [+] give that value if it has the
    operator's method and Unknown otherwise. *)
Theorem unaryop_non_literal_operand
        (T : Tree) (rec : node -> InferenceContext -> gen) (op : string)
        (impl : pyval -> impl_result) (meth : option string)
        (operand value : node) (ctx : InferenceContext) :
  UNARY_OP_IMPL op = Some (impl, meth) ->
  rec operand ctx = yield1 value -> is_Const value = false ->
  infer_unaryop T rec op operand ctx
  = yield1 match meth with
           | Some m => if has_attr T value m then value else YES
           | None => YES
           end
  /\ (op = "not" -> infer_unaryop T rec op operand ctx = yield1 YES).
Proof.
  intros Hop Ho Hv.
  assert (H : infer_unaryop T rec op operand ctx
              = yield1 match meth with
                       | Some m => if has_attr T value m then value else YES
                       | None => YES
                       end).
  { unfold infer_unaryop. rewrite Hop. unfold _infer_unary_operator.
    rewrite Ho. cbn.
    destruct value; cbn in Hv; try discriminate; cbn;
      destruct meth as [m|]; try reflexivity;
      destruct (has_attr T _ m); reflexivity. }
  split; [exact H|].
  intros ->. rewrite H. cbn in Hop. injection Hop as _ <-. reflexivity.
Qed.

Lemma unaryop_non_literal_operand_witness :
  infer_unaryop bare_tree (infer bare_tree 1) "not" (Tuple []) fresh_context
  = yield1 YES.
Proof.
  destruct (unaryop_non_literal_operand
              bare_tree (infer bare_tree 1) "not" py_not None (Tuple [])
              (Tuple []) fresh_context eq_refl eq_refl eq_refl) as [_ H].
  exact (H eq_refl).
Defined.

(** ** Subscripts *)



(** X20: the base of a subscript is not inferred: with a literal index,
    a base that is not itself a list, tuple or dict literal (a name, a
    call, a literal number) fails with InferenceError. *)
Theorem subscript_of_other_base_fails
        (rec : node -> InferenceContext -> gen) (expr sub : node)
        (v : pyval) (ctx : InferenceContext) (k : gen) :
  has_getitem expr = false -> is_YES expr = false ->
  rec sub ctx = GYield (Const v) k ->
  infer_subscript rec expr [sub] ctx = raise (InferenceError None).
Proof.
  intros Hg Hy H. unfold infer_subscript. rewrite H. cbn.
  destruct expr; cbn in Hg, Hy; try discriminate; reflexivity.
Qed.

Lemma subscript_of_other_base_fails_witness :
  run (infer SomeClass_tree 2 (Subscript 1 (Name 2 "SomeClass")
                                         [Const (PInt 0)]) fresh_context) []
  = ([], Raise (InferenceError None), [(1%nat, None)])
  /\ infer_subscript (infer SomeClass_tree 1) (Name 2 "SomeClass")
                     [Const (PInt 0)] fresh_context
     = raise (InferenceError None).
Proof.
  split; [reflexivity|].
  apply (subscript_of_other_base_fails
           (infer SomeClass_tree 1) (Name 2 "SomeClass") (Const (PInt 0))
           (PInt 0) fresh_context stop); reflexivity.
Defined.

(** X21: a list or tuple literal subscripted by a literal that is no
    integer (a string, None) ends the inference with the TypeError of the
    indexing, which the subscript does not catch. *)
Theorem subscript_by_non_integer_raises_TypeError
        (T : Tree) (fuel id : nat) (base : node) (elts : list node)
        (v : pyval) (ctx : InferenceContext) :
  is_sequence base = Some elts -> as_int v = None ->
  infer T (S (S fuel)) (Subscript id base [Const v]) ctx
  = path_wrapper (Subscript id base [Const v]) ctx (raise TypeError).
Proof.
  intros Hb Hv.
  destruct base; cbn in Hb; try discriminate; injection Hb as <-;
    cbn; unfold infer_subscript; cbn; unfold tl_getitem, py_index;
    rewrite Hv; reflexivity.
Qed.

Lemma subscript_by_non_integer_raises_TypeError_witness :
  run (infer bare_tree 2 (Subscript 1 (List (ints [1; 2])) [Const (PStr "a")])
             fresh_context) []
  = ([], Raise TypeError, [(1%nat, None)]).
Proof.
  rewrite (subscript_by_non_integer_raises_TypeError
             bare_tree 0 1 (List (ints [1; 2])) (ints [1; 2]) (PStr "a")
             fresh_context eq_refl eq_refl).
  reflexivity.
Defined.

(** ** Dict literals *)

(** X22: in a dict literal with literal keys, indexed access gives the
    value of the first key equal to the index and raises IndexError when
    no key is; subscripting such a dict by a literal gives what that
    value infers to, and Unknown for a missing key. *)
Theorem dict_getitem_finds_first_equal_key
        (T : Tree) (fuel id : nat) (kvs : list (pyval * node)) (key : pyval)
        (ctx : InferenceContext) :
  dict_getitem (infer T (S fuel)) (literal_dict_items kvs) key
  = match first_value kvs key with
    | Some value => inl value
    | None => inr (Raise IndexError)
    end
  /\ infer T (S (S fuel)) (Subscript id (Dict (literal_dict_items kvs))
                                     [Const key]) ctx
     = path_wrapper (Subscript id (Dict (literal_dict_items kvs)) [Const key])
                    ctx
                    (gfun match first_value kvs key with
                          | Some value => infer T (S fuel) value ctx
                          | None => yield1 YES
                          end).
Proof.
  assert (H : dict_getitem (infer T (S fuel)) (literal_dict_items kvs) key
              = match first_value kvs key with
                | Some value => inl value
                | None => inr (Raise IndexError)
                end).
  { unfold first_value. induction kvs as [|[k v] kvs IH]; [reflexivity|].
    cbn -[infer]. rewrite infer_Const. cbn -[infer].
    destruct (py_eq k key); [reflexivity | exact IH]. }
  split; [exact H|].
  change (infer T (S (S fuel))) with (infer_node T (infer T (S fuel))).
  cbn [infer_node]. f_equal. unfold infer_subscript.
  rewrite infer_Const. cbn [gnext yield1 is_YES getitem].
  rewrite H. destruct (first_value kvs key); reflexivity.
Qed.

(** ** Access paths into nested literals *)

Lemma py_index_In {A : Type} (l : list A) (index : pyval) (x : A) :
  py_index l index = inl x -> In x l.
Proof.
  unfold py_index. destruct (as_int index) as [i|]; [|discriminate].
  destruct (_ && _); [|discriminate].
  destruct (nth_error l _) eqn:E; [|discriminate].
  intros H. injection H as <-. eapply nth_error_In, E.
Qed.

Lemma py_index_int_error {A : Type} (l : list A) (i : Z) (e : exc) :
  py_index l (PInt i) = inr e -> e = IndexError.
Proof.
  unfold py_index. cbn [as_int].
  destruct (_ && _); [|congruence].
  destruct (nth_error l _); congruence.
Qed.

Lemma nested_literal_infers_to_itself
      (T : Tree) (fuel : nat) (n : node) (ctx : InferenceContext) :
  nested_literal n = true -> infer T (S fuel) n ctx = yield1 n.
Proof. destruct n; cbn; try discriminate; reflexivity. Qed.

Lemma nested_literal_element (n : node) (elts : list node) (i : Z) (x : node) :
  nested_literal n = true -> is_sequence n = Some elts ->
  py_index elts (PInt i) = inl x -> nested_literal x = true.
Proof.
  intros Hn Hs Hx. apply py_index_In in Hx.
  destruct n; cbn in Hs; try discriminate; injection Hs as <-;
    cbn in Hn; rewrite forallb_forall in Hn; now apply Hn.
Qed.

Lemma resolve_asspart_descends
      (rec : node -> InferenceContext -> gen) (ctx : InferenceContext)
      (n x : node) (index next : Z) (asspath : list Z) :
  getitem rec n (PInt index) = inl x -> is_YES x = false ->
  _resolve_asspart rec (yield1 n) (index :: next :: asspath) ctx
  = gfun (gseq (gcatch (_resolve_asspart rec (rec x ctx) (next :: asspath) ctx)
                       is_InferenceError (fun _ => GStop Returned))
               stop).
Proof. intros H1 H2. cbn -[getitem]. rewrite H1, H2. reflexivity. Qed.

Lemma resolve_asspart_last
      (rec : node -> InferenceContext -> gen) (ctx : InferenceContext)
      (n x : node) (index : Z) :
  getitem rec n (PInt index) = inl x ->
  _resolve_asspart rec (yield1 n) [index] ctx = yield1 x.
Proof. intros H. cbn -[getitem]. rewrite H. reflexivity. Qed.

Lemma resolve_asspart_halts
      (rec : node -> InferenceContext -> gen) (ctx : InferenceContext)
      (n : node) (index : Z) (asspath : list Z) :
  getitem rec n (PInt index) = inr (Raise IndexError)
  \/ getitem rec n (PInt index) = inr (Raise AttributeError) ->
  _resolve_asspart rec (yield1 n) (index :: asspath) ctx = stop.
Proof. intros [H|H]; cbn -[getitem]; rewrite H; reflexivity. Qed.

Lemma getitem_in_literal
      (rec : node -> InferenceContext -> gen) (n : node) (index : Z) :
  nested_literal n = true ->
  getitem rec n (PInt index)
  = match is_sequence n with
    | Some elts =>
        match py_index elts (PInt index) with
        | inl x => inl x
        | inr _ => inr (Raise IndexError)
        end
    | None => inr (Raise AttributeError)
    end.
Proof.
  intros Hn. destruct n; cbn in Hn; try discriminate; cbn -[py_index];
    try reflexivity; unfold tl_getitem;
    destruct (py_index elts (PInt index)) as [x|e] eqn:E; try reflexivity;
    now rewrite (py_index_int_error _ _ _ E).
Qed.

Lemma resolve_asspart_in_literal
      (T : Tree) (fuel : nat) (ctx : InferenceContext)
      (asspath : list Z) (index : Z) (n : node) :
  nested_literal n = true ->
  _resolve_asspart (infer T (S fuel)) (yield1 n) (index :: asspath) ctx
  = match literal_walk n (index :: asspath) with
    | Some x => yield1 x
    | None => stop
    end.
Proof.
  revert index n. induction asspath as [|next asspath IH]; intros index n Hn;
    pose proof (getitem_in_literal (infer T (S fuel)) n index Hn) as Hget;
    cbn [literal_walk]; destruct (is_sequence n) as [elts|] eqn:Hs;
    try (apply resolve_asspart_halts; now right);
    destruct (py_index elts (PInt index)) as [x|e] eqn:E;
    try (apply resolve_asspart_halts; now left).
  - now apply resolve_asspart_last.
  - assert (Hx : nested_literal x = true)
      by (eapply nested_literal_element; eauto).
    assert (Hyes : is_YES x = false)
      by (destruct x; cbn in Hx; try discriminate; reflexivity).
    rewrite (resolve_asspart_descends _ ctx n x index next asspath Hget Hyes).
    rewrite (nested_literal_infers_to_itself T fuel x ctx Hx).
    fold (yield1 x). rewrite (IH next x Hx).
    cbn [literal_walk].
    destruct (is_sequence x) as [elts'|]; [|reflexivity].
    destruct (py_index elts' (PInt next)) as [y|]; [|reflexivity].
    destruct (literal_walk y asspath); reflexivity.
Qed.

(** X23: when the right-hand side of an assignment is a literal nested
    in list and tuple literals, the value assigned at a non-empty access
    path is exactly the element the path reaches in the literal, given
    as it is; a path that leaves the literal, by an index out of range
    or by stepping into a number or string, fails with InferenceError. *)
Theorem assigned_part_of_nested_literal
        (T : Tree) (fuel : nat) (nd : node) (ctx : InferenceContext)
        (expr : node) (index : Z) (asspath : list Z) :
  nested_literal expr = true ->
  assign_assigned_stmts (infer T (S fuel)) expr nd ctx
                        (Some (index :: asspath))
  = match literal_walk expr (index :: asspath) with
    | Some x => yield1 x
    | None => raise (InferenceError None)
    end.
Proof.
  intros Hn. unfold assign_assigned_stmts.
  rewrite (nested_literal_infers_to_itself T fuel expr ctx Hn).
  rewrite (resolve_asspart_in_literal T fuel ctx asspath index expr Hn).
  destruct (literal_walk expr (index :: asspath)); reflexivity.
Qed.

Lemma assigned_part_of_nested_literal_witness :
  assign_assigned_stmts (infer bare_tree 1)
     (Tuple [Const (PInt 1); List [Const (PInt 2); Tuple [Const (PInt 3)]]])
     Pass fresh_context (Some [1; -1; 0])
  = yield1 (Const (PInt 3))
  /\ assign_assigned_stmts (infer bare_tree 1)
        (Tuple [Const (PInt 1); List [Const (PInt 2); Tuple [Const (PInt 3)]]])
        Pass fresh_context (Some [1; 2])
     = raise (InferenceError None).
Proof.
  split.
  - apply (assigned_part_of_nested_literal
             bare_tree 0 Pass fresh_context
             (Tuple [Const (PInt 1);
                     List [Const (PInt 2); Tuple [Const (PInt 3)]]])
             1 [-1; 0] eq_refl).
  - apply (assigned_part_of_nested_literal
             bare_tree 0 Pass fresh_context
             (Tuple [Const (PInt 1);
                     List [Const (PInt 2); Tuple [Const (PInt 3)]]])
             1 [2] eq_refl).
Defined.

(** ** Imports *)

(** X24: resolving an imported module never ends with
    ASTNGBuildingException or SyntaxError: both become InferenceError
    carrying the module name; it succeeds exactly when the name is not
    the importing module's own and the module loads, and then gives the
    loaded module. *)
Theorem imported_module_outcomes
        (T : Tree) (id : nat) (modname : string) :
  _imported_module_astng T id modname <> inr ASTNGBuildingException
  /\ _imported_module_astng T id modname <> inr SyntaxError
  /\ (forall m,
         _imported_module_astng T id modname = inl m <->
         relative_name T (root T id) modname <> node_name (root T id)
         /\ import_module T (root T id) modname = inl m)
  /\ (import_module T (root T id) modname = inr ASTNGBuildingException
      \/ import_module T (root T id) modname = inr SyntaxError ->
      _imported_module_astng T id modname = inr (InferenceError (Some modname))).
Proof.
  unfold _imported_module_astng.
  destruct (String.eqb _ _) eqn:E.
  - apply String.eqb_eq in E.
    split; [discriminate|]. split; [discriminate|]. split.
    + intros m. split; [discriminate | intros [H _]; contradiction].
    + reflexivity.
  - apply String.eqb_neq in E.
    destruct (import_module T (root T id) modname) as [m'|e] eqn:Hm.
    + split; [discriminate|]. split; [discriminate|]. split.
      * intros m. split; [intros H; split; [exact E | exact H]
                         | intros [_ H]; exact H].
      * intros [H|H]; discriminate.
    + split; [destruct e; discriminate|].
      split; [destruct e; discriminate|]. split.
      * intros m. split; [destruct e; discriminate
                         | intros [_ H]; discriminate].
      * intros [H|H]; injection H as ->; reflexivity.
Qed.

(** ** Exception handlers *)

Lemma run_gfor_yield (g : gen) (f : node -> node) (p : path) :
  run (gfor g (fun v => yield1 (f v)) stop) p
  = (map f (values (run g p)), ended (run g p), snd (run g p)).
Proof.
  revert p. induction g as [e|v g IH|key k IH]; intros p.
  - destruct e; reflexivity.
  - cbn. rewrite IH. destruct (run g p) as [[vs e] p']. reflexivity.
  - cbn. destruct (in_path key p); apply IH.
Qed.

Lemma run_gfound (g : gen) (seen : bool) (e : exc) (p : path) :
  run (gfound seen g e) p
  = (values (run g p),
     match ended (run g p) with
     | Done => if seen || negb (Nat.eqb (length (values (run g p))) 0)
               then Done else Raise e
     | x => x
     end,
     snd (run g p)).
Proof.
  revert seen p. induction g as [x|v g IH|key k IH]; intros seen p.
  - destruct x; cbn; try reflexivity.
    destruct seen; reflexivity.
  - cbn. rewrite IH. destruct (run g p) as [[vs x] p']. cbn.
    rewrite orb_true_r. destruct x; reflexivity.
  - cbn. destruct (in_path key p); apply IH.
Qed.

(** X25: the value bound by an exception handler comes from the first
    handler that binds the target, later handlers binding it being
    ignored: each class its type expression stands for is wrapped in an
    Instance, any other value is passed as it is, in order; when no
    handler binds the target, or that handler's types give no value, the
    resolution fails with InferenceError. *)
Theorem tryexcept_binds_instances_of_first_handler
        (unpack_infer : node -> gen)
        (handlers : list (node * option nat * list node)) (target : nat)
        (p : path) :
  match find (binds_target target) handlers with
  | None =>
      tryexcept_assigned_stmts unpack_infer handlers target
      = raise (InferenceError None)
  | Some (exc_type, _, _) =>
      let r := run (unpack_infer exc_type) p in
      run (tryexcept_assigned_stmts unpack_infer handlers target) p
      = (map instance_of_class (values r),
         match ended r with
         | Done => match values r with
                   | [] => Raise (InferenceError None)
                   | _ => Done
                   end
         | x => x
         end,
         snd r)
  end.
Proof.
  unfold tryexcept_assigned_stmts.
  induction handlers as [|[[ty obj] body] handlers IH].
  - reflexivity.
  - cbn [find tryexcept_handlers]. unfold binds_target at 1. cbn [fst snd].
    destruct (match obj with
              | Some t => Nat.eqb target t
              | None => false
              end) eqn:E.
    + cbn zeta. rewrite run_gfound, run_gfor_yield.
      cbn [values ended fst snd]. rewrite length_map.
      destruct (run (unpack_infer ty) p) as [[vs x] p']. cbn.
      destruct x; try reflexivity. destruct vs; reflexivity.
    + exact IH.
Qed.

(** [except (ValueError, KeyError), e] after a handler that binds
    nothing: the target is bound to the instances of both classes. *)
Example tryexcept_tuple_of_types :
  run (tryexcept_assigned_stmts
         (fun ty => match ty with
                    | Tuple elts => fold_right GYield stop elts
                    | _ => yield1 ty
                    end)
         [(Name 1 "OSError", None, [Pass]);
          (Tuple [ValueError_class; KeyError_class], Some 9%nat, [Pass]);
          (KeyError_class, Some 9%nat, [Pass])]
         9) []
  = ([Instance ValueError_class; Instance KeyError_class], Done, []).
Proof. reflexivity. Qed.

(** ** Names imported from a module and global names *)

(** X26: inferring a name imported by [from m import ...]: without a
    name under lookup it raises InferenceError; an alias the import does
    not define leaves [real_name]'s NotFoundError uncaught; when [m] made
    relative is the importing module's own name it raises InferenceError
    carrying [m] and the module's attributes are not looked up; a name
    the resolved module does not define raises InferenceError carrying
    the real name. *)
Theorem infer_from_failures
        (T : Tree) (rec : node -> InferenceContext -> gen)
        (getattr : node -> string -> list node + exc)
        (id : nat) (modname alias : string)
        (self_real_name : string -> string + exc)
        (cc : option CallContext) (bn : option node) :
  infer_from T rec getattr id modname self_real_name (mkContext None cc bn) true
  = raise (InferenceError None)
  /\ (self_real_name alias = inr NotFoundError ->
      infer_from T rec getattr id modname self_real_name
                 (mkContext (Some alias) cc bn) true
      = raise NotFoundError)
  /\ (forall name,
         self_real_name alias = inl name ->
         relative_name T (root T id) modname = node_name (root T id) ->
         infer_from T rec getattr id modname self_real_name
                    (mkContext (Some alias) cc bn) true
         = raise (InferenceError (Some modname)))
  /\ (forall name module,
         self_real_name alias = inl name ->
         _imported_module_astng T id modname = inl module ->
         getattr module name = inr NotFoundError ->
         infer_from T rec getattr id modname self_real_name
                    (mkContext (Some alias) cc bn) true
         = raise (InferenceError (Some name))).
Proof.
  split; [reflexivity|]. split; [|split].
  - intros H. unfold infer_from. cbn. now rewrite H.
  - intros name H Hrel. unfold infer_from, _imported_module_astng. cbn.
    now rewrite H, Hrel, String.eqb_refl.
  - intros name module H Hm Hg. unfold infer_from. cbn.
    now rewrite H, Hm, Hg.
Qed.

(** X27: inferring a global name: without a name under lookup, or with
    a name the module does not define, it raises InferenceError; a name
    defined at module level by one class infers to that class. *)
Theorem infer_global_outcomes
        (T : Tree) (fuel : nat)
        (getattr : node -> string -> list node + exc)
        (id : nat) (name : string) (cc : option CallContext)
        (bn : option node) :
  infer_global T (infer T (S fuel)) getattr id (mkContext None cc bn)
  = raise (InferenceError None)
  /\ (getattr (root T id) name = inr NotFoundError ->
      infer_global T (infer T (S fuel)) getattr id (mkContext (Some name) cc bn)
      = raise (InferenceError None))
  /\ (forall cid cname bases code,
         getattr (root T id) name = inl [Class cid cname bases code] ->
         infer_global T (infer T (S fuel)) getattr id
                      (mkContext (Some name) cc bn)
         = yield1 (Class cid cname bases code)).
Proof.
  split; [reflexivity|]. split.
  - intros H. unfold infer_global. cbn. now rewrite H.
  - intros cid cname bases code H. unfold infer_global. cbn.
    now rewrite H.
Qed.

(** ** Keys of a dict literal *)

(** X28: the statements a dict literal iterates over are its items at
    the even positions, the keys, in order; for a dict built from
    (key, value) pairs they are exactly the keys. *)
Theorem dict_iter_stmts_are_the_keys
        (items : list node) (kvs : list (pyval * node)) (i : nat) :
  nth_error (dict_iter_stmts items) i = nth_error items (2 * i)
  /\ dict_iter_stmts (literal_dict_items kvs)
     = map (fun kv => Const (fst kv)) kvs.
Proof.
  split.
  - revert items. induction i as [|i IH]; intros items.
    + destruct items; reflexivity.
    + replace (2 * S i)%nat with (S (S (2 * i))) by lia.
      destruct items as [|k [|v rest]].
      * reflexivity.
      * cbn. now destruct i.
      * cbn [dict_iter_stmts nth_error]. apply IH.
  - induction kvs as [|[k v] kvs IH]; [reflexivity|].
    cbn. now rewrite <- IH.
Qed.

(** [{1: 10, 2: 20}[2]] and a missing key. *)
Example dict_literal_subscripts :
  run (infer bare_tree 2
             (Subscript 1 (Dict (ints [1; 10; 2; 20])) [Const (PInt 2)])
             fresh_context) []
  = ([Const (PInt 20)], Done, [(1%nat, None)])
  /\ run (infer bare_tree 2
                (Subscript 1 (Dict (ints [1; 10; 2; 20])) [Const (PInt 3)])
                fresh_context) []
     = ([YES], Done, [(1%nat, None)]).
Proof. split; reflexivity. Qed.

(** ** Instances of the import and global properties *)

Lemma imported_module_outcomes_witness :
  _imported_module_astng pkg_tree 1 "os" = inl (Module 9 "pkg")
  /\ _imported_module_astng bare_tree 1 "os" = inr (InferenceError (Some "os")).
Proof.
  destruct (imported_module_outcomes pkg_tree 1 "os") as (_ & _ & Hok & _).
  destruct (imported_module_outcomes bare_tree 1 "os") as (_ & _ & _ & Hfail).
  split.
  - apply Hok. split; [discriminate | reflexivity].
  - apply Hfail. left. reflexivity.
Defined.

Lemma infer_from_failures_witness :
  let getattr := fun (_ : node) (_ : string) =>
                   @inr (list node) exc NotFoundError in
  let names := fun s => if String.eqb s "j" then inl "join"
                        else inr NotFoundError in
  infer_from pkg_tree (infer pkg_tree 1) getattr 1 "os" names
             (mkContext (Some "k") None None) true
  = raise NotFoundError
  /\ infer_from pkg_tree (infer pkg_tree 1) getattr 1 "pkg" names
                (mkContext (Some "j") None None) true
     = raise (InferenceError (Some "pkg"))
  /\ infer_from pkg_tree (infer pkg_tree 1) getattr 1 "os" names
                (mkContext (Some "j") None None) true
     = raise (InferenceError (Some "join")).
Proof.
  intros getattr names.
  destruct (infer_from_failures pkg_tree (infer pkg_tree 1) getattr 1 "os" "k"
                                names None None) as (_ & Halias & _ & _).
  destruct (infer_from_failures pkg_tree (infer pkg_tree 1) getattr 1 "pkg" "j"
                                names None None) as (_ & _ & Hself & _).
  destruct (infer_from_failures pkg_tree (infer pkg_tree 1) getattr 1 "os" "j"
                                names None None) as (_ & _ & _ & Hmissing).
  split; [|split].
  - exact (Halias eq_refl).
  - exact (Hself "join" eq_refl eq_refl).
  - exact (Hmissing "join" (Module 9 "pkg") eq_refl eq_refl eq_refl).
Defined.

Lemma infer_global_outcomes_witness :
  infer_global bare_tree (infer bare_tree 1)
               (fun _ _ => inr NotFoundError) 1
               (mkContext (Some "g") None None)
  = raise (InferenceError None)
  /\ infer_global bare_tree (infer bare_tree 1)
                  (fun _ _ => inl [SomeClass]) 1
                  (mkContext (Some "SomeClass") None None)
     = yield1 SomeClass.
Proof.
  destruct (infer_global_outcomes bare_tree 0 (fun _ _ => inr NotFoundError)
                                  1 "g" None None) as (_ & Hmiss & _).
  destruct (infer_global_outcomes bare_tree 0 (fun _ _ => inl [SomeClass])
                                  1 "SomeClass" None None) as (_ & _ & Hfound).
  split.
  - exact (Hmiss eq_refl).
  - exact (Hfound _ _ _ _ eq_refl).
Defined.
